(** * PeakInfer VS Code extension: the analysis runner (src/analysis.ts)

    A shallow embedding of [AnalysisRunner]: the token lookup, the
    transformation of the API response into the local model, the grouping
    of a workspace response by file and the summary computed for each file.

    Conventions of the embedding.
    - A JavaScript string is a [string]; each character stands for one
      code unit below 256.
    - An optional property ([x?: T], or a property the code defends with
      [||]) is an [option]; [None] is [undefined].
    - [line], [column] and the credit counts are integers ([Z]);
      [confidence] and the benchmark values are binary64 numbers ([float]).
    - The closed union ['critical' | 'high' | 'medium' | 'low'] is an
      inductive type; the wire severity stays a string, since [mapSeverity]
      has a [default] branch for values outside its declared union.
    - [Set<string>] and [Map<string, V>] keep insertion order, so they are
      lists without repeated elements (keys).
    - [throw] is the [Throw] constructor of [result]. *)

From Stdlib Require Import Bool Arith ZArith List String Ascii Lia.
From Stdlib Require Import Floats.PrimFloat.
From Stdlib Require Import Numbers.DecimalString.
From Stdlib Require Numbers.DecimalPos Numbers.DecimalZ.
From Stdlib Require Import Sorting.Permutation.
Import ListNotations.

Local Open Scope string_scope.
Local Open Scope list_scope.

Set Implicit Arguments.

(* ------------------------------------------------------------------ *)
(** ** JavaScript primitives used by the runner *)

Module JS.

(** Truthiness ([ToBoolean]) of the values the runner tests. *)
Definition truthy_string (s : string) : bool :=
  match s with
  | EmptyString => false
  | String _ _ => true
  end.

Definition truthy_opt_string (o : option string) : bool :=
  match o with
  | Some s => truthy_string s
  | None => false
  end.

(** A number is falsy when it is [+0], [-0] or [NaN]. *)
Definition truthy_number (x : float) : bool :=
  negb (PrimFloat.eqb x 0%float || PrimFloat.is_nan x).

(** [a || b] on an optional string and on an optional number. *)
Definition or_string (a : option string) (b : string) : string :=
  match a with
  | Some s => if truthy_string s then s else b
  | None => b
  end.

Definition or_number (a : option float) (b : float) : float :=
  match a with
  | Some x => if truthy_number x then x else b
  | None => b
  end.

(** [a || b] where [a] is an object or an array: every object is truthy. *)
Definition or_object (A : Type) (a : option A) (b : A) : A :=
  match a with
  | Some x => x
  | None => b
  end.

(** [String(n)] for an integer [n] (decimal digits, a leading [-] for a
    negative one), as in the template literal [`${file}:${line}`]. *)
Definition Number_toString (n : Z) : string :=
  NilZero.string_of_int (Z.to_int n).

(** White space and line terminators removed by [String.prototype.trim],
    among the code units below 256: TAB, LF, VT, FF, CR, SP, NBSP. *)
Definition isWhiteSpace (c : ascii) : bool :=
  let n := nat_of_ascii c in
  Nat.eqb n 9 || Nat.eqb n 10 || Nat.eqb n 11 || Nat.eqb n 12
  || Nat.eqb n 13 || Nat.eqb n 32 || Nat.eqb n 160.

Fixpoint trimStart (s : string) : string :=
  match s with
  | EmptyString => EmptyString
  | String c rest => if isWhiteSpace c then trimStart rest else s
  end.

(** [trimEnd] keeps a character when it is not white space or when
    something remains after it. *)
Fixpoint trimEnd (s : string) : string :=
  match s with
  | EmptyString => EmptyString
  | String c rest =>
      match trimEnd rest with
      | EmptyString => if isWhiteSpace c then EmptyString else String c EmptyString
      | rest' => String c rest'
      end
  end.

Definition trim (s : string) : string := trimEnd (trimStart s).

(** [s.split(sep)] for a one-character separator: the accumulator [cur]
    holds the segment read so far. *)
Fixpoint split_aux (sep : ascii) (cur : string) (s : string) : list string :=
  match s with
  | EmptyString => [cur]
  | String c rest =>
      if Ascii.eqb c sep
      then cur :: split_aux sep EmptyString rest
      else split_aux sep (cur ++ String c EmptyString)%string rest
  end.

Definition split (sep : ascii) (s : string) : list string :=
  split_aux sep EmptyString s.

(** [arr.pop()] read for its value: the last element, [undefined] on an
    empty array. *)
Fixpoint pop (A : Type) (l : list A) : option A :=
  match l with
  | [] => None
  | [x] => Some x
  | _ :: rest => pop rest
  end.

(** [s.endsWith(suffix)]. *)
Definition endsWith (s suffix : string) : bool :=
  let n := String.length s in
  let m := String.length suffix in
  if Nat.leb m n then String.eqb (substring (n - m) m s) suffix else false.

(** [Set<string>]: insertion-ordered, [add] ignores a value already there. *)
Definition StringSet := list string.

Definition Set_has (x : string) (s : StringSet) : bool :=
  existsb (String.eqb x) s.

Definition Set_add (x : string) (s : StringSet) : StringSet :=
  if Set_has x s then s else s ++ [x].

Definition Array_from (s : StringSet) : list string := s.

(** [Map<string, V>]: insertion-ordered; [set] on an existing key keeps
    the key's position. *)
Definition Map (V : Type) := list (string * V).

Fixpoint Map_get (V : Type) (k : string) (m : Map V) : option V :=
  match m with
  | [] => None
  | (k', v) :: rest => if String.eqb k k' then Some v else Map_get k rest
  end.

Definition Map_has (V : Type) (k : string) (m : Map V) : bool :=
  match Map_get k m with
  | Some _ => true
  | None => false
  end.

Fixpoint Map_set (V : Type) (k : string) (v : V) (m : Map V) : Map V :=
  match m with
  | [] => [(k, v)]
  | (k', v') :: rest =>
      if String.eqb k k' then (k', v) :: rest else (k', v') :: Map_set k v rest
  end.

(** [s.startsWith(p)]. *)
Fixpoint startsWith (s p : string) : bool :=
  match p, s with
  | EmptyString, _ => true
  | String a p', String b s' => Ascii.eqb a b && startsWith s' p'
  | String _ _, EmptyString => false
  end.

(** [s.includes(sub)]: [sub] starts at some position of [s]. *)
Fixpoint includes (s sub : string) : bool :=
  startsWith s sub
  || match s with
     | EmptyString => false
     | String _ rest => includes rest sub
     end.

(** [a ?? b]: only [undefined] gives way to the default. *)
Definition nullish (A : Type) (a : option A) (b : A) : A :=
  match a with
  | Some x => x
  | None => b
  end.

(** [arr.join(sep)] on an array of strings. *)
Definition join (sep : string) (arr : list string) : string :=
  String.concat sep arr.

End JS.

(* ------------------------------------------------------------------ *)
(** ** Exceptions *)

Inductive result (A : Type) : Type :=
| Ok (a : A)
| Throw (message : string).

Arguments Ok {A} a.
Arguments Throw {A} message.

Definition bind (A B : Type) (r : result A) (k : A -> result B) : result B :=
  match r with
  | Ok a => k a
  | Throw e => Throw e
  end.

Notation "x <- r ;; k" := (bind r (fun x => k))
  (at level 61, r at next level, right associativity).

(* ------------------------------------------------------------------ *)
(** ** The local model: [InferencePoint], [Issue], [AnalysisResult] *)

Record Patterns : Type := mkPatterns {
  streaming : option bool;
  batching : option bool;
  retries : option bool;
  caching : option bool;
  fallback : option bool
}.

(** The object literal [{}]. *)
Definition emptyPatterns : Patterns := mkPatterns None None None None None.

Inductive Severity : Type := critical | high | medium | low.

Definition Severity_eqb (a b : Severity) : bool :=
  match a, b with
  | critical, critical | high, high | medium, medium | low, low => true
  | _, _ => false
  end.

Record Benchmark : Type := mkBenchmark {
  yourValue : option float;
  benchmarkValue : option float;
  gap : option string
}.

Record Issue : Type := mkIssue {
  type : string;
  severity : Severity;
  title : string;
  description : string;
  impact : option string;
  fix_ : option string;   (* [fix] in the source; a keyword here *)
  benchmark : option Benchmark
}.

Record InferencePoint : Type := mkInferencePoint {
  id : string;
  file : string;
  line : Z;
  column : option Z;
  provider : option string;
  model : option string;
  framework : option string;
  patterns : Patterns;
  issues : list Issue;
  confidence : float
}.

Record Credits : Type := mkCredits {
  consumed : Z;
  remaining : Z
}.

Record Summary : Type := mkSummary {
  totalPoints : nat;
  criticalIssues : nat;
  warnings : nat;
  providers : list string;
  models : list string
}.

Record AnalysisResult : Type := mkAnalysisResult {
  version : string;
  result_file : string;
  analyzedAt : string;
  inferencePoints : list InferencePoint;
  summary : Summary;
  credits : option Credits
}.

(* ------------------------------------------------------------------ *)
(** ** The wire model: [ApiAnalysisResponse], [ApiErrorResponse]

    [id], [provider], [model] and [issues] are declared required by the
    interface, but the runner copes with their absence ([apiPoint.id || ...],
    [apiPoint.issues || []], optional targets for [provider] and [model]),
    so they are optional here.  The wire [summary] is never read by the
    runner and is left out. *)

Module Api.

Record Issue : Type := mkIssue {
  type : string;
  severity : string;
  headline : string;
  evidence : string;
  suggestedFix : option string
}.

Record InferencePoint : Type := mkInferencePoint {
  id : option string;
  file : string;
  line : Z;
  column : option Z;
  provider : option string;
  model : option string;
  framework : option string;
  patterns : option Patterns;
  issues : option (list Issue);
  confidence : option float
}.

Record Credits : Type := mkCredits {
  consumed : Z;
  remaining : Z;
  expiringSoon : Z
}.

Record AnalysisResponse : Type := mkAnalysisResponse {
  success : bool;
  inferencePoints : list InferencePoint;
  credits : option Credits
}.

Record ErrorResponse : Type := mkErrorResponse {
  error : string;
  code : option string;
  hint : option string
}.

(** What [callAnalysisAPI] hands back; the callers tell the two apart
    with ['error' in response]. *)
Inductive Response : Type :=
| Analysis (r : AnalysisResponse)
| Error (e : ErrorResponse).

End Api.

(* ------------------------------------------------------------------ *)
(** ** What the runner reads from its host *)

Record Host : Type := mkHost {
  (** [vscode.workspace.getConfiguration('peakinfer').get<string>('token')] *)
  config_token : option string;
  (** [process.env.PEAKINFER_TOKEN] *)
  env_PEAKINFER_TOKEN : option string;
  (** [new Date().toISOString()]: the value of the n-th reading *)
  clock : nat -> string
}.

(* ------------------------------------------------------------------ *)
(** ** [AnalysisRunner] *)

(** [getToken] (lines 127-136). *)
Definition getToken (h : Host) : option string :=
  match config_token h with
  | Some settingsToken =>
      if JS.truthy_string settingsToken && JS.truthy_string (JS.trim settingsToken)
      then Some (JS.trim settingsToken)
      else env_PEAKINFER_TOKEN h
  | None => env_PEAKINFER_TOKEN h
  end.

Definition missingTokenMessage : string :=
  "PeakInfer token not configured. Set it in VS Code settings (peakinfer.token) or PEAKINFER_TOKEN environment variable. Get your token at https://peakinfer.com/dashboard".

(** [validateToken] (lines 141-151). *)
Definition validateToken (h : Host) : result string :=
  match getToken h with
  | Some token => if JS.truthy_string token then Ok token else Throw missingTokenMessage
  | None => Throw missingTokenMessage
  end.

(** [mapSeverity] (lines 315-326). *)
Definition mapSeverity (severity : string) : Severity :=
  if String.eqb severity "critical" then critical
  else if String.eqb severity "warning" then high
  else if String.eqb severity "info" then low
  else medium.

(** The arrow function mapped over the wire issues (lines 301-307); the
    object literal sets neither [impact] nor [benchmark]. *)
Definition transformIssue (issue : Api.Issue) : Issue :=
  {| type := Api.type issue;
     severity := mapSeverity (Api.severity issue);
     title := Api.headline issue;
     description := Api.evidence issue;
     impact := None;
     fix_ := Api.suggestedFix issue;
     benchmark := None |}.

(** The template literal [`${apiPoint.file}:${apiPoint.line}`]. *)
Definition compositeId (f : string) (l : Z) : string :=
  (f ++ ":" ++ JS.Number_toString l)%string.

(** The literal [0.9]: the binary64 number nearest to nine tenths. *)
Definition defaultConfidence : float := 0x1.ccccccccccccdp-1%float.

(** [transformInferencePoint] (lines 291-310). *)
Definition transformInferencePoint (apiPoint : Api.InferencePoint) : InferencePoint :=
  {| id := JS.or_string (Api.id apiPoint)
             (compositeId (Api.file apiPoint) (Api.line apiPoint));
     file := Api.file apiPoint;
     line := Api.line apiPoint;
     column := Api.column apiPoint;
     provider := Api.provider apiPoint;
     model := Api.model apiPoint;
     framework := Api.framework apiPoint;
     patterns := JS.or_object (Api.patterns apiPoint) emptyPatterns;
     issues := map transformIssue (JS.or_object (Api.issues apiPoint) []);
     confidence := JS.or_number (Api.confidence apiPoint) defaultConfidence |}.

(** The mutable locals of [createResultFromPoints]. *)
Record Tally : Type := mkTally {
  t_providers : JS.StringSet;
  t_models : JS.StringSet;
  t_criticalIssues : nat;
  t_warnings : nat
}.

(** Body of the inner loop (lines 360-362). *)
Definition countIssue (t : Tally) (issue : Issue) : Tally :=
  if Severity_eqb (severity issue) critical
  then mkTally (t_providers t) (t_models t) (S (t_criticalIssues t)) (t_warnings t)
  else if Severity_eqb (severity issue) high || Severity_eqb (severity issue) medium
  then mkTally (t_providers t) (t_models t) (t_criticalIssues t) (S (t_warnings t))
  else t.

(** Body of the outer loop (lines 356-363). *)
Definition tallyPoint (t : Tally) (point : InferencePoint) : Tally :=
  let t1 :=
    match provider point with
    | Some p =>
        if JS.truthy_string p
        then mkTally (JS.Set_add p (t_providers t)) (t_models t)
                     (t_criticalIssues t) (t_warnings t)
        else t
    | None => t
    end in
  let t2 :=
    match model point with
    | Some m =>
        if JS.truthy_string m
        then mkTally (t_providers t1) (JS.Set_add m (t_models t1))
                     (t_criticalIssues t1) (t_warnings t1)
        else t1
    | None => t1
    end in
  fold_left countIssue (issues point) t2.

Definition emptyTally : Tally := mkTally [] [] 0 0.

(** [createResultFromPoints] (lines 345-383); [now] is what
    [new Date().toISOString()] returns when the result is built. *)
Definition createResultFromPoints (fileName : string)
    (points : list InferencePoint) (apiCredits : option Api.Credits)
    (now : string) : AnalysisResult :=
  let t := fold_left tallyPoint points emptyTally in
  {| version := "1.0";
     result_file := fileName;
     analyzedAt := now;
     inferencePoints := points;
     summary :=
       {| totalPoints := List.length points;
          criticalIssues := t_criticalIssues t;
          warnings := t_warnings t;
          providers := JS.Array_from (t_providers t);
          models := JS.Array_from (t_models t) |};
     credits :=
       match apiCredits with
       | Some c => Some (mkCredits (Api.consumed c) (Api.remaining c))
       | None => None
       end |}.

(** [fileName.split('/').pop() || ''] (line 336). *)
Definition leafName (fileName : string) : string :=
  JS.or_string (JS.pop (JS.split "/"%char fileName)) "".

(** The filter predicate of [transformApiResponse] (line 336). *)
Definition matchesFile (fileName : string) (p : Api.InferencePoint) : bool :=
  String.eqb (Api.file p) fileName || JS.endsWith (Api.file p) (leafName fileName).

(** [transformApiResponse] (lines 331-340). *)
Definition transformApiResponse (fileName : string)
    (response : Api.AnalysisResponse) (now : string) : AnalysisResult :=
  let points :=
    map transformInferencePoint
        (filter (matchesFile fileName) (Api.inferencePoints response)) in
  createResultFromPoints fileName points (Api.credits response) now.

(** The message of the error thrown for an error response (lines 170, 223). *)
Definition errorMessage (e : Api.ErrorResponse) : string :=
  (Api.error e ++
   (if JS.truthy_opt_string (Api.hint e)
    then " (" ++ JS.or_string (Api.hint e) "" ++ ")"
    else ""))%string.

(** [analyzeFile] (lines 156-174), given the file's path and the answer of
    [callAnalysisAPI]. *)
Definition analyzeFile (h : Host) (fileName : string)
    (response : Api.Response) : result AnalysisResult :=
  _ <- validateToken h ;;
  match response with
  | Api.Error e => Throw (errorMessage e)
  | Api.Analysis r => Ok (transformApiResponse fileName r (clock h 0))
  end.

(** Body of the grouping loop (lines 233-239).  [get(fileName)!.push(...)]
    on a missing key would be a [TypeError]. *)
Definition groupPoint (resultsByFile : JS.Map (list InferencePoint))
    (point : Api.InferencePoint) : result (JS.Map (list InferencePoint)) :=
  let fileName := Api.file point in
  let m :=
    if negb (JS.Map_has fileName resultsByFile)
    then JS.Map_set fileName [] resultsByFile
    else resultsByFile in
  match JS.Map_get fileName m with
  | Some arr => Ok (JS.Map_set fileName (arr ++ [transformInferencePoint point]) m)
  | None => Throw "TypeError: Cannot read properties of undefined (reading 'push')"
  end.

Fixpoint groupPoints (resultsByFile : JS.Map (list InferencePoint))
    (points : list Api.InferencePoint) : result (JS.Map (list InferencePoint)) :=
  match points with
  | [] => Ok resultsByFile
  | point :: rest =>
      m <- groupPoint resultsByFile point ;;
      groupPoints m rest
  end.

(** Body of the second loop (lines 244-248); the state is the [results]
    array and the number of clock readings made so far. *)
Definition pushResult (h : Host) (apiCredits : option Api.Credits)
    (st : list AnalysisResult * nat) (entry : string * list InferencePoint)
    : list AnalysisResult * nat :=
  let '(results, reads) := st in
  let '(fileName, points) := entry in
  if Nat.ltb 0 (List.length points)
  then (results ++ [createResultFromPoints fileName points apiCredits (clock h reads)],
        S reads)
  else st.

(** Lines 231-250 of [analyzeWorkspace]. *)
Definition groupResults (h : Host) (response : Api.AnalysisResponse)
    : result (list AnalysisResult) :=
  resultsByFile <- groupPoints [] (Api.inferencePoints response) ;;
  Ok (fst (fold_left (pushResult h (Api.credits response)) resultsByFile ([], 0))).

(** [analyzeWorkspace] (lines 179-251), given the answer of
    [callAnalysisAPI] for the collected files. *)
Definition analyzeWorkspace (h : Host) (response : Api.Response)
    : result (list AnalysisResult) :=
  _ <- validateToken h ;;
  match response with
  | Api.Error e => Throw (errorMessage e)
  | Api.Analysis r => groupResults h r
  end.

(* ------------------------------------------------------------------ *)
(** ** The runner and its collaborators

    The editor, the network and the sinks are outside the repository; the
    runner is modelled as a function of what they answer, and what it asks
    of them is recorded as a trace of events. *)

Record Uri : Type := mkUri {
  fsPath : string
}.

Record FileInfo : Type := mkFileInfo {
  path : string;
  content : string
}.

(** The request of [callAnalysisAPI] (lines 261-277).  [JSON.stringify]
    leaves out a property whose value is [undefined], so
    [layers.benchmarks] is optional; when present it is
    [{ framework: 'api' }], kept here by its [framework]. *)
Record Request : Type := mkRequest {
  url : string;
  method : string;
  headers : list (string * string);
  body_files : list FileInfo;
  body_source : string;
  body_layers_benchmarks : option string;
  body_mode : string
}.

(** What the runner reads from the editor. *)
Record VSCode : Type := mkVSCode {
  (** [vscode.workspace.findFiles(include, exclude)] *)
  findFiles : string -> string -> list Uri;
  (** [(await vscode.workspace.openTextDocument(uri)).getText()], or the
      message of the error it throws *)
  openTextDocument : Uri -> result string;
  (** [config.get<boolean>('includeBenchmarks')] *)
  config_includeBenchmarks : option bool;
  (** [config.get<string[]>('excludePatterns')] *)
  config_excludePatterns : option (list string)
}.

(** [await fetch(...)] followed by [await response.json()]: the parsed
    body, or the message of the error thrown.  [callAnalysisAPI] returns
    the body whatever [response.ok] says (the two [as] casts are erased),
    and its callers tell an error from an analysis by ['error' in
    response]. *)
Definition Fetch : Type := Request -> result Api.Response.

Inductive Event : Type :=
| WithProgress (title : string) (cancellable : bool)
| ProgressReport (message : string) (increment : option Z)
| HttpPost (request : Request)
| ShowInformationMessage (message : string)
| ShowWarningMessage (message : string) (items : list string)
| ShowErrorMessage (message : string) (items : list string)
| DiagnosticsClear
| DiagnosticsClearFile (uri : Uri)
| DiagnosticsUpdateFromAnalysis (r : AnalysisResult)
| DiagnosticsUpdateFromMultipleAnalyses (rs : list AnalysisResult)
| ResultsPanelUpdateResults (rs : list AnalysisResult)
| ConfigUpdateToken (token : string).

Definition PEAKINFER_API : string := "https://www.peakinfer.com/api".

(** The argument of [fetch] in [callAnalysisAPI] (lines 261-277). *)
Definition buildRequest (token : string) (files : list FileInfo)
    (includeBenchmarks : bool) : Request :=
  {| url := (PEAKINFER_API ++ "/analyze")%string;
     method := "POST";
     headers := [("Content-Type", "application/json");
                 ("Authorization", ("Bearer " ++ token)%string)];
     body_files := files;
     body_source := "vscode";
     body_layers_benchmarks := if includeBenchmarks then Some "api" else None;
     body_mode := "paid" |}.

(** [callAnalysisAPI] (lines 256-286): the request made and the answer. *)
Definition callAnalysisAPI (fetch : Fetch) (token : string)
    (files : list FileInfo) (includeBenchmarks : bool)
    : list Event * result Api.Response :=
  let request := buildRequest token files includeBenchmarks in
  ([HttpPost request], fetch request).

Definition maxFiles : nat := 50.

Definition maxContentLength : N := 100000.

(** Body of the collecting loop (lines 203-212): a file that cannot be
    read, or whose text is not shorter than 100000, is skipped. *)
Definition collectFile (vs : VSCode) (files : list FileInfo) (fileUri : Uri)
    : list FileInfo :=
  match openTextDocument vs fileUri with
  | Ok text =>
      if N.ltb (N.of_nat (String.length text)) maxContentLength
      then files ++ [mkFileInfo (fsPath fileUri) text]
      else files
  | Throw _ => files
  end.

(** The collecting loop (lines 199-213): [i] runs over the indices below
    [Math.min(fileUris.length, maxFiles)]. *)
Definition collectFiles (vs : VSCode) (fileUris : list Uri) : list FileInfo :=
  fold_left (collectFile vs)
            (firstn (Nat.min (List.length fileUris) maxFiles) fileUris) [].

Definition includeGlob : string := "**/*.{ts,tsx,js,jsx,py,go,rs}".

(** [`{${excludePatterns.join(',')}}`] (line 191). *)
Definition excludeGlob (vs : VSCode) : string :=
  ("{" ++ JS.join "," (JS.or_object (config_excludePatterns vs) []) ++ "}")%string.

(** [`Analyzing ${files.length} files...`] (line 216). *)
Definition analyzingMessage (files : list FileInfo) : string :=
  ("Analyzing " ++ JS.Number_toString (Z.of_nat (List.length files))
   ++ " files...")%string.

(** [analyzeFile] of the runner in full (lines 156-174): the token is
    validated, then the document is read, then the request is made. *)
Definition runAnalyzeFile (h : Host) (vs : VSCode) (fetch : Fetch)
    (fileUri : Uri) : list Event * result AnalysisResult :=
  match validateToken h with
  | Throw e => ([], Throw e)
  | Ok token =>
      match openTextDocument vs fileUri with
      | Throw e => ([], Throw e)
      | Ok text =>
          let fileName := fsPath fileUri in
          let includeBenchmarks := JS.nullish (config_includeBenchmarks vs) true in
          let files := [mkFileInfo fileName text] in
          let '(events, answer) :=
            callAnalysisAPI fetch token files includeBenchmarks in
          match answer with
          | Throw e => (events, Throw e)
          | Ok (Api.Error e) => (events, Throw (errorMessage e))
          | Ok (Api.Analysis r) =>
              (events, Ok (transformApiResponse fileName r (clock h 0)))
          end
      end
  end.

(** [analyzeWorkspace] of the runner in full (lines 179-251), called with
    a [progress] as the command does. *)
Definition runAnalyzeWorkspace (h : Host) (vs : VSCode) (fetch : Fetch)
    : list Event * result (list AnalysisResult) :=
  match validateToken h with
  | Throw e => ([], Throw e)
  | Ok token =>
      let includeBenchmarks := JS.nullish (config_includeBenchmarks vs) true in
      let fileUris := findFiles vs includeGlob (excludeGlob vs) in
      let files := collectFiles vs fileUris in
      let before :=
        [ProgressReport "Collecting files..." None;
         ProgressReport (analyzingMessage files) (Some 50%Z)] in
      let '(events, answer) :=
        callAnalysisAPI fetch token files includeBenchmarks in
      match answer with
      | Throw e => (before ++ events, Throw e)
      | Ok (Api.Error e) => (before ++ events, Throw (errorMessage e))
      | Ok (Api.Analysis r) =>
          (before ++ events ++ [ProgressReport "Processing results..." (Some 40%Z)],
           groupResults h r)
      end
  end.

(* ------------------------------------------------------------------ *)
(** ** The commands (src/commands.ts) *)

Module Commands.

(** [validateInput] of the input box of [peakinfer.setToken]
    (lines 456-461): the message shown, [None] for [null]. *)
Definition validateInput (value : string) : option string :=
  if negb (JS.truthy_string value)
     || Nat.eqb (String.length (JS.trim value)) 0
  then Some "Token cannot be empty"
  else None.


(** [uri.fsPath.split('/').pop() || uri.fsPath] (line 485). *)
Definition displayName (uri : Uri) : string :=
  JS.or_string (JS.pop (JS.split "/"%char (fsPath uri))) (fsPath uri).

(** The [catch] blocks (lines 528-546 and 612-630). *)
Definition reportError (errorMessage : string) : list Event :=
  if JS.includes errorMessage "token" || JS.includes errorMessage "Token"
  then [ShowErrorMessage ("PeakInfer: " ++ errorMessage)%string ["Set Token"]]
  else [ShowErrorMessage ("PeakInfer: " ++ errorMessage)%string []].

(** [` with ${critical} critical and ${warnings} warnings`], added when
    one of the two is positive (lines 512-514 and 594-596). *)
Definition countsSuffix (critical warnings : nat) : string :=
  if Nat.ltb 0 critical || Nat.ltb 0 warnings
  then (" with " ++ JS.Number_toString (Z.of_nat critical) ++ " critical and "
        ++ JS.Number_toString (Z.of_nat warnings) ++ " warnings")%string
  else "".

(** The notification that ends a successful run (lines 516-524 and
    598-608). *)
Definition notify (critical : nat) (message : string) : Event :=
  if Nat.ltb 0 critical
  then ShowWarningMessage message ["Show Results"]
  else ShowInformationMessage message.

(** What [analyzeFile] does with the outcome of the runner
    (lines 497-546). *)
Definition presentFile (uri : Uri) (outcome : result AnalysisResult)
    : list Event :=
  match outcome with
  | Throw e => reportError e
  | Ok r =>
      if Nat.eqb (List.length (inferencePoints r)) 0
      then [ShowInformationMessage
              ("PeakInfer: No inference points found in " ++ displayName uri)%string;
            DiagnosticsClearFile uri]
      else
        let s := summary r in
        let message :=
          ("PeakInfer: Found " ++ JS.Number_toString (Z.of_nat (totalPoints s))
           ++ " inference point(s)"
           ++ countsSuffix (criticalIssues s) (warnings s))%string in
        [DiagnosticsUpdateFromAnalysis r;
         notify (criticalIssues s) message;
         ResultsPanelUpdateResults [r]]
  end.

(** [analyzeFile] (lines 480-549). *)
Definition analyzeFile (h : Host) (vs : VSCode) (fetch : Fetch) (uri : Uri)
    : list Event :=
  let '(events, outcome) := runAnalyzeFile h vs fetch uri in
  [WithProgress ("PeakInfer: Analyzing " ++ displayName uri)%string false;
   ProgressReport "Scanning for inference points..." None]
  ++ events ++ presentFile uri outcome.

(** The totals loop (lines 582-590). *)
Definition addTotals (acc : nat * nat * nat) (r : AnalysisResult)
    : nat * nat * nat :=
  let '(totalPoints_, totalCritical, totalWarnings) := acc in
  (totalPoints_ + totalPoints (summary r),
   totalCritical + criticalIssues (summary r),
   totalWarnings + warnings (summary r)).

Definition totals (results : list AnalysisResult) : nat * nat * nat :=
  fold_left addTotals results (0, 0, 0).

(** What [analyzeWorkspace] does with the outcome of the runner
    (lines 570-630). *)
Definition presentWorkspace (outcome : result (list AnalysisResult))
    : list Event :=
  match outcome with
  | Throw e => reportError e
  | Ok results =>
      if Nat.eqb (List.length results) 0
      then [ShowInformationMessage
              "PeakInfer: No inference points found in workspace"]
      else
        let '(totalPoints_, totalCritical, totalWarnings) := totals results in
        let message :=
          ("PeakInfer: Found " ++ JS.Number_toString (Z.of_nat totalPoints_)
           ++ " inference point(s) in "
           ++ JS.Number_toString (Z.of_nat (List.length results)) ++ " file(s)"
           ++ countsSuffix totalCritical totalWarnings)%string in
        [DiagnosticsUpdateFromMultipleAnalyses results;
         notify totalCritical message;
         ResultsPanelUpdateResults results]
  end.

(** [analyzeWorkspace] (lines 554-633). *)
Definition analyzeWorkspace (h : Host) (vs : VSCode) (fetch : Fetch)
    : list Event :=
  let '(events, outcome) := runAnalyzeWorkspace h vs fetch in
  [WithProgress "PeakInfer: Analyzing workspace" true; DiagnosticsClear]
  ++ events ++ presentWorkspace outcome.

End Commands.

(* ------------------------------------------------------------------ *)
(** ** Vocabulary of the properties *)

(** A string made of white space only (the empty string included). *)
Fixpoint whiteSpaceOnly (s : string) : bool :=
  match s with
  | EmptyString => true
  | String c rest => JS.isWhiteSpace c && whiteSpaceOnly rest
  end.

Definition firstChar (s : string) : option ascii :=
  match s with
  | EmptyString => None
  | String c _ => Some c
  end.

Fixpoint lastChar (s : string) : option ascii :=
  match s with
  | EmptyString => None
  | String c EmptyString => Some c
  | String _ rest => lastChar rest
  end.

(** [c] is absent or is not white space. *)
Definition notWhiteSpace (c : option ascii) : Prop :=
  match c with
  | Some a => JS.isWhiteSpace a = false
  | None => True
  end.

(** Every issue of every point, in order. *)
Definition allIssues (points : list InferencePoint) : list Issue :=
  flat_map issues points.

(** The number of issues of a given severity. *)
Definition countSeverity (s : Severity) (l : list Issue) : nat :=
  List.length (filter (fun i => Severity_eqb (severity i) s) l).

(** [if (field) set.add(field)] for an optional string field. *)
Definition addIfTruthy (field : option string) (s : JS.StringSet) : JS.StringSet :=
  match field with
  | Some x => if JS.truthy_string x then JS.Set_add x s else s
  | None => s
  end.

(** The distinct values of a list, in the order of their first
    appearance: the head, then what follows without the head. *)
Fixpoint firstOccurrences (l : list string) : list string :=
  match l with
  | [] => []
  | x :: rest => x :: remove string_dec x (firstOccurrences rest)
  end.

(** The wire points tagged with file [f], transformed, in source order. *)
Definition pointsOf (f : string) (points : list Api.InferencePoint)
    : list InferencePoint :=
  map transformInferencePoint
      (filter (fun p => String.eqb (Api.file p) f) points).

(** The groups of a response: one per distinct file, in the order of
    first appearance. *)
Definition groupsOf (points : list Api.InferencePoint)
    : JS.Map (list InferencePoint) :=
  map (fun f => (f, pointsOf f points))
      (firstOccurrences (map Api.file points)).

(** One result per group, the k-th built at the k-th clock reading. *)
Fixpoint resultsFrom (h : Host) (apiCredits : option Api.Credits) (k : nat)
    (entries : JS.Map (list InferencePoint)) : list AnalysisResult :=
  match entries with
  | [] => []
  | (f, points) :: rest =>
      createResultFromPoints f points apiCredits (clock h k)
      :: resultsFrom h apiCredits (S k) rest
  end.

(** The array read as [arr || []]. *)
Definition arrayOf (A : Type) (o : option (list A)) : list A :=
  match o with
  | Some l => l
  | None => []
  end.

(** Does the character occur in the string? *)
Fixpoint hasChar (c : ascii) (s : string) : bool :=
  match s with
  | EmptyString => false
  | String d rest => Ascii.eqb d c || hasChar c rest
  end.

(** [leaf] is the leaf name of [path]: it has no "/" and it is [path]
    itself or what follows a "/" of [path] (then the last one). *)
Definition isLeafNameOf (leaf path : string) : Prop :=
  hasChar "/" leaf = false /\
  (path = leaf \/ exists dir : string, path = (dir ++ "/" ++ leaf)%string).

(** [s] ends with [suffix]. *)
Definition hasSuffix (s suffix : string) : Prop :=
  exists pre : string, s = (pre ++ suffix)%string.

(** A point with file [pointFile] may sit in the result of [resultFile]. *)
Definition belongsTo (pointFile resultFile : string) : Prop :=
  pointFile = resultFile \/
  exists leaf : string, isLeafNameOf leaf resultFile /\ hasSuffix pointFile leaf.

(* ------------------------------------------------------------------ *)
(** ** Sample inputs *)

Module Samples.

(** A wire point that carries only [file] and [line]. *)
Definition sparsePoint (f : string) (l : Z) : Api.InferencePoint :=
  Api.mkInferencePoint None f l None None None None None None None.

Definition warningIssue : Api.Issue :=
  Api.mkIssue "latency" "warning" "No streaming" "stream: false" None.

Definition pointWithWarning : Api.InferencePoint :=
  Api.mkInferencePoint (Some "p1") "a.py" 10 None (Some "openai") (Some "gpt-4")
    None None (Some [warningIssue]) (Some 0.5%float).

(** A wire point whose confidence is the number zero. *)
Definition zeroConfidencePoint : Api.InferencePoint :=
  Api.mkInferencePoint (Some "p0") "a.py" 10 None None None None None None
    (Some 0%float).

(** A wire point whose id is the empty string. *)
Definition emptyIdPoint : Api.InferencePoint :=
  Api.mkInferencePoint (Some "") "src/app.ts" 42 None None None None None None
    None.

Definition tick (n : nat) : string :=
  ("2026-01-01T00:00:0" ++ JS.Number_toString (Z.of_nat n) ++ ".000Z")%string.

(** The token is set in the environment only; the setting is blank. *)
Definition blankSettingHost : Host :=
  mkHost (Some "  ") (Some "pk_env") tick.

(** The token is set in the settings, with blanks around it. *)
Definition settingHost : Host :=
  mkHost (Some " pk_settings ") (Some "pk_env") tick.

(** Two points tagged "b.ts" and one tagged "c.ts". *)
Definition twoFilesResponse : Api.AnalysisResponse :=
  Api.mkAnalysisResponse true
    [sparsePoint "b.ts" 3; sparsePoint "c.ts" 7; sparsePoint "b.ts" 12]
    (Some (Api.mkCredits 1 99 0)).

(** The answer to a request for "/work/src/app.ts": the server names the
    file by its full path, by a relative path, and names other files. *)
Definition singleFileResponse : Api.AnalysisResponse :=
  Api.mkAnalysisResponse true
    [sparsePoint "/work/src/app.ts" 3; sparsePoint "lib/other.ts" 4;
     sparsePoint "src/app.ts" 5; sparsePoint "vendor/app.ts" 6]
    None.

Definition issueOf (sev : Severity) : Issue :=
  mkIssue "cost" sev "title" "description" None None None.

Definition pointOf (prov mdl : option string) (sevs : list Severity)
    : InferencePoint :=
  mkInferencePoint "id" "a.py" 1 None prov mdl None emptyPatterns
    (map issueOf sevs) defaultConfidence.

Definition mixedPoints : list InferencePoint :=
  [ pointOf (Some "openai") (Some "gpt-4") [critical; low; high];
    pointOf None (Some "") [medium; critical];
    pointOf (Some "openai") (Some "gpt-4o") [low] ].

End Samples.

(* ------------------------------------------------------------------ *)
(** ** More vocabulary and scenarios *)

(** What the collecting loop keeps of one URI. *)
Definition keptFile (vs : VSCode) (u : Uri) : list FileInfo :=
  match openTextDocument vs u with
  | Ok text =>
      if N.ltb (N.of_nat (String.length text)) maxContentLength
      then [mkFileInfo (fsPath u) text]
      else []
  | Throw _ => []
  end.

(** The requests of a trace, in order. *)
Fixpoint requestsOf (events : list Event) : list Request :=
  match events with
  | [] => []
  | HttpPost r :: rest => r :: requestsOf rest
  | _ :: rest => requestsOf rest
  end.

(** An event that fills a sink with results. *)
Definition publishes (e : Event) : bool :=
  match e with
  | DiagnosticsUpdateFromAnalysis _
  | DiagnosticsUpdateFromMultipleAnalyses _
  | ResultsPanelUpdateResults _ => true
  | _ => false
  end.

(** A warning notification. *)
Definition isWarning (e : Event) : bool :=
  match e with
  | ShowWarningMessage _ _ => true
  | _ => false
  end.

(** [sub] occurs in [s]. *)
Definition occursIn (sub s : string) : Prop :=
  exists a b : string, s = (a ++ sub ++ b)%string.

Module Scenarios.

Definition noTokenHost : Host := mkHost None None Samples.tick.

(** No setting; the environment variable holds one blank. *)
Definition blankEnvHost : Host := mkHost None (Some " ") Samples.tick.

Definition uriA : Uri := mkUri "/w/src/a.ts".
Definition uriB : Uri := mkUri "/w/src/b.ts".
Definition uriC : Uri := mkUri "/w/lib/c.py".

(** Three files are found; the second cannot be opened. *)
Definition editor : VSCode :=
  mkVSCode
    (fun _ _ => [uriA; uriB; uriC])
    (fun u =>
       if String.eqb (fsPath u) "/w/src/a.ts" then Ok "const a = 1"
       else if String.eqb (fsPath u) "/w/lib/c.py" then Ok "c = 3"
       else Throw "cannot open file")
    (Some false)
    None.

Definition creditsError : Api.ErrorResponse :=
  Api.mkErrorResponse "Insufficient credits" (Some "402") (Some "Buy more").

Definition failingFetch : Fetch := fun _ => Ok (Api.Error creditsError).

Definition twoFilesFetch : Fetch :=
  fun _ => Ok (Api.Analysis Samples.twoFilesResponse).

Definition criticalIssue : Api.Issue :=
  Api.mkIssue "cost" "critical" "X" "Y" None.

(** The answer for "/w/src/a.ts": one point with a critical issue. *)
Definition criticalResponse : Api.AnalysisResponse :=
  Api.mkAnalysisResponse true
    [Api.mkInferencePoint None "/w/src/a.ts" 10 None (Some "openai") None None
       None (Some [criticalIssue; Samples.warningIssue]) None]
    None.

Definition criticalFetch : Fetch := fun _ => Ok (Api.Analysis criticalResponse).

End Scenarios.

(* ------------------------------------------------------------------ *)
(** * Properties *)

(** ** Severity mapping *)

Section SeverityMapping.

Lemma mapSeverity_critical : mapSeverity "critical" = critical.
Proof. reflexivity. Qed.

Lemma mapSeverity_warning : mapSeverity "warning" = high.
Proof. reflexivity. Qed.

Lemma mapSeverity_info : mapSeverity "info" = low.
Proof. reflexivity. Qed.

Lemma mapSeverity_default (s : string) :
  s <> "critical" -> s <> "warning" -> s <> "info" -> mapSeverity s = medium.
Proof.
  intros Hc Hw Hi. unfold mapSeverity.
  apply String.eqb_neq in Hc, Hw, Hi.
  now rewrite Hc, Hw, Hi.
Qed.

(** The issues of a transformed point are the wire issues, one for one. *)
Lemma transformInferencePoint_issue (p : Api.InferencePoint) (n : nat) :
  nth_error (issues (transformInferencePoint p)) n =
  option_map transformIssue (nth_error (JS.or_object (Api.issues p) []) n).
Proof. simpl. apply nth_error_map. Qed.

End SeverityMapping.

(** C1. Every wire issue of a wire point is transformed, at the same
    position, into an issue whose severity follows the table: wire
    "critical" gives [critical], "warning" gives [high], "info" gives
    [low], and any other wire value gives [medium]. *)
Theorem transformInferencePoint_severity
    (p : Api.InferencePoint) (n : nat) (wireIssue : Api.Issue) :
  nth_error (JS.or_object (Api.issues p) []) n = Some wireIssue ->
  exists issue : Issue,
    nth_error (issues (transformInferencePoint p)) n = Some issue /\
    (Api.severity wireIssue = "critical" -> severity issue = critical) /\
    (Api.severity wireIssue = "warning" -> severity issue = high) /\
    (Api.severity wireIssue = "info" -> severity issue = low) /\
    (Api.severity wireIssue <> "critical" ->
     Api.severity wireIssue <> "warning" ->
     Api.severity wireIssue <> "info" -> severity issue = medium).
Proof.
  intros Hn. exists (transformIssue wireIssue).
  rewrite transformInferencePoint_issue, Hn. simpl.
  split; [reflexivity|].
  repeat split.
  - intros ->. reflexivity.
  - intros ->. reflexivity.
  - intros ->. reflexivity.
  - apply mapSeverity_default.
Qed.

Lemma transformInferencePoint_severity_witness :
  exists issue : Issue,
    nth_error (issues (transformInferencePoint Samples.pointWithWarning)) 0
      = Some issue /\
    severity issue = high.
Proof.
  destruct (@transformInferencePoint_severity Samples.pointWithWarning 0
              Samples.warningIssue eq_refl)
    as (issue & Hnth & _ & Hwarning & _).
  exists issue. split; [exact Hnth | apply Hwarning; reflexivity].
Defined.

(** ** Normalisation of one point *)

Section Normalisation.

Variable p : Api.InferencePoint.

Lemma transformInferencePoint_confidence_present (c : float) :
  Api.confidence p = Some c -> JS.truthy_number c = true ->
  confidence (transformInferencePoint p) = c.
Proof. intros Hc Ht. simpl. rewrite Hc. simpl. now rewrite Ht. Qed.

Lemma transformInferencePoint_confidence_falsy (c : float) :
  Api.confidence p = Some c -> JS.truthy_number c = false ->
  confidence (transformInferencePoint p) = defaultConfidence.
Proof. intros Hc Ht. simpl. rewrite Hc. simpl. now rewrite Ht. Qed.

Lemma transformInferencePoint_confidence_absent :
  Api.confidence p = None ->
  confidence (transformInferencePoint p) = defaultConfidence.
Proof. intros Hc. simpl. now rewrite Hc. Qed.

End Normalisation.

Lemma defaultConfidence_nonzero : defaultConfidence <> 0%float.
Proof.
  intros H. apply (f_equal JS.truthy_number) in H.
  vm_compute in H. discriminate H.
Qed.

(** C2. On the wire point [{id: "p0", file: "a.py", line: 10, confidence: 0}]
    the payload carries a confidence, the number zero, yet the transformed
    point has confidence 0.9 and not the wire value: [0 || 0.9] is [0.9]. *)
Theorem transformInferencePoint_confidence_zero :
  Api.confidence Samples.zeroConfidencePoint = Some 0%float /\
  confidence (transformInferencePoint Samples.zeroConfidencePoint)
    = defaultConfidence /\
  confidence (transformInferencePoint Samples.zeroConfidencePoint) <> 0%float.
Proof.
  split; [reflexivity|]. split; [reflexivity|].
  exact defaultConfidence_nonzero.
Qed.

(** C3. The id of a transformed point is the wire id when that is a
    non-empty string, and the text "<file>:<line>" when the wire id is
    absent or the empty string. *)
Theorem transformInferencePoint_id (p : Api.InferencePoint) :
  (forall s : string,
     Api.id p = Some s -> s <> "" -> id (transformInferencePoint p) = s) /\
  (Api.id p = None \/ Api.id p = Some "" ->
   id (transformInferencePoint p)
     = (Api.file p ++ ":" ++ JS.Number_toString (Api.line p))%string).
Proof.
  split.
  - intros s Hs Hne. simpl. rewrite Hs. simpl.
    destruct s; [contradiction | reflexivity].
  - intros [H | H]; simpl; rewrite H; reflexivity.
Qed.

Lemma transformInferencePoint_id_witness :
  id (transformInferencePoint Samples.pointWithWarning) = "p1" /\
  id (transformInferencePoint Samples.emptyIdPoint) = "src/app.ts:42" /\
  id (transformInferencePoint (Samples.sparsePoint "a.py" 10)) = "a.py:10".
Proof.
  split; [| split].
  - apply (proj1 (transformInferencePoint_id Samples.pointWithWarning) "p1");
      [reflexivity | discriminate].
  - apply (proj2 (transformInferencePoint_id Samples.emptyIdPoint)).
    right. reflexivity.
  - apply (proj2 (transformInferencePoint_id (Samples.sparsePoint "a.py" 10))).
    left. reflexivity.
Defined.

(** C9. A wire point that carries only [file] and [line] is transformed
    into a point (the function is total: it returns a value on every
    input) whose patterns are the empty mapping, whose issues are the empty
    sequence and whose optional [column], [provider], [model] and
    [framework] are still absent; its id is "<file>:<line>" and its
    confidence the default. *)
Theorem transformInferencePoint_sparse (p : Api.InferencePoint) :
  Api.id p = None -> Api.column p = None -> Api.provider p = None ->
  Api.model p = None -> Api.framework p = None -> Api.patterns p = None ->
  Api.issues p = None -> Api.confidence p = None ->
  transformInferencePoint p =
    {| id := (Api.file p ++ ":" ++ JS.Number_toString (Api.line p))%string;
       file := Api.file p;
       line := Api.line p;
       column := None;
       provider := None;
       model := None;
       framework := None;
       patterns := mkPatterns None None None None None;
       issues := [];
       confidence := defaultConfidence |}.
Proof.
  intros Hid Hcol Hprov Hmod Hfw Hpat Hiss Hconf.
  unfold transformInferencePoint.
  rewrite Hid, Hcol, Hprov, Hmod, Hfw, Hpat, Hiss, Hconf.
  reflexivity.
Qed.

Lemma transformInferencePoint_sparse_witness :
  transformInferencePoint (Samples.sparsePoint "a.py" 10) =
    {| id := "a.py:10"; file := "a.py"; line := 10;
       column := None; provider := None; model := None; framework := None;
       patterns := mkPatterns None None None None None;
       issues := [];
       confidence := defaultConfidence |}.
Proof.
  exact (@transformInferencePoint_sparse (Samples.sparsePoint "a.py" 10)
           eq_refl eq_refl eq_refl eq_refl eq_refl eq_refl eq_refl eq_refl).
Defined.

(** ** Token lookup *)

Section Trim.

Lemma trimStart_decompose (s : string) :
  exists a : string,
    s = (a ++ JS.trimStart s)%string /\ whiteSpaceOnly a = true /\
    notWhiteSpace (firstChar (JS.trimStart s)).
Proof.
  induction s as [| c rest IH].
  - exists "". now repeat split.
  - simpl. destruct (JS.isWhiteSpace c) eqn:Hc.
    + destruct IH as (a & Heq & Ha & Hf).
      exists (String c a). simpl. rewrite Hc, Ha, <- Heq. now repeat split.
    + exists "". simpl. now repeat split.
Qed.

Lemma trimEnd_decompose (s : string) :
  exists b : string,
    s = (JS.trimEnd s ++ b)%string /\ whiteSpaceOnly b = true /\
    notWhiteSpace (lastChar (JS.trimEnd s)).
Proof.
  induction s as [| c rest IH].
  - exists "". now repeat split.
  - destruct IH as (b & Heq & Hb & Hl). simpl.
    destruct (JS.trimEnd rest) as [| d rest'] eqn:Hrest.
    + destruct (JS.isWhiteSpace c) eqn:Hc.
      * exists (String c b). simpl in *. subst b. rewrite Hc, Hb. now repeat split.
      * exists b. simpl in *. subst b. now repeat split.
    + exists b. split; [| split].
      * simpl. simpl in Heq. now rewrite <- Heq.
      * exact Hb.
      * exact Hl.
Qed.

Lemma trimEnd_firstChar (s : string) :
  notWhiteSpace (firstChar s) -> notWhiteSpace (firstChar (JS.trimEnd s)).
Proof.
  destruct s as [| c rest]; [easy |].
  simpl. intros Hc. destruct (JS.trimEnd rest); [| exact Hc].
  now rewrite Hc.
Qed.

(** [trim] removes a run of white space at each end and nothing else, and
    what remains neither starts nor ends with white space. *)
Lemma trim_decompose (s : string) :
  exists a b : string,
    s = (a ++ JS.trim s ++ b)%string /\
    whiteSpaceOnly a = true /\ whiteSpaceOnly b = true /\
    notWhiteSpace (firstChar (JS.trim s)) /\
    notWhiteSpace (lastChar (JS.trim s)).
Proof.
  destruct (trimStart_decompose s) as (a & Ha & Hwa & Hfa).
  destruct (trimEnd_decompose (JS.trimStart s)) as (b & Hb & Hwb & Hlb).
  exists a, b. unfold JS.trim. repeat split; auto.
  - now rewrite <- Hb.
  - now apply trimEnd_firstChar.
Qed.

Lemma trimStart_whiteSpaceOnly (s : string) :
  whiteSpaceOnly s = true -> JS.trimStart s = "".
Proof.
  induction s as [| c rest IH]; [reflexivity |].
  simpl. intros H. apply andb_true_iff in H as [Hc Hrest].
  rewrite Hc. now apply IH.
Qed.

Lemma trim_whiteSpaceOnly (s : string) :
  whiteSpaceOnly s = true -> JS.trim s = "".
Proof.
  intros H. unfold JS.trim. now rewrite (trimStart_whiteSpaceOnly s H).
Qed.

End Trim.

(** C6. [getToken] returns the trimmed setting when the setting is
    non-empty after trimming; when the setting is absent or empty after
    trimming it returns the environment variable; so with a setting that
    is empty or white space only and the environment variable set, it
    returns the environment value. *)
Theorem getToken_precedence (h : Host) :
  (forall s : string,
     config_token h = Some s -> JS.trim s <> "" ->
     getToken h = Some (JS.trim s)) /\
  (config_token h = None \/
   (exists s : string, config_token h = Some s /\ JS.trim s = "") ->
   getToken h = env_PEAKINFER_TOKEN h) /\
  (forall s e : string,
     config_token h = Some s -> whiteSpaceOnly s = true ->
     env_PEAKINFER_TOKEN h = Some e ->
     getToken h = Some e).
Proof.
  assert (Hblank : forall s, config_token h = Some s -> JS.trim s = "" ->
                             getToken h = env_PEAKINFER_TOKEN h).
  { intros s Hs Ht. unfold getToken. rewrite Hs, Ht. simpl.
    now rewrite andb_false_r. }
  split; [| split].
  - intros s Hs Hne. unfold getToken. rewrite Hs.
    destruct s as [| c rest]; [now elim Hne |].
    destruct (JS.trim (String c rest)); [now elim Hne | reflexivity].
  - intros [Hnone | (s & Hs & Ht)].
    + unfold getToken. now rewrite Hnone.
    + now apply (Hblank s).
  - intros s e Hs Hws He. rewrite <- He.
    apply (Hblank s Hs). now apply trim_whiteSpaceOnly.
Qed.

Lemma getToken_precedence_witness :
  getToken Samples.settingHost = Some "pk_settings" /\
  getToken Samples.blankSettingHost = Some "pk_env".
Proof.
  split.
  - apply (proj1 (getToken_precedence Samples.settingHost) " pk_settings ");
      [reflexivity | discriminate].
  - apply (proj2 (proj2 (getToken_precedence Samples.blankSettingHost))
             "  " "pk_env"); reflexivity.
Defined.

(** ** Summary of a result *)

Section Tally.

Lemma Set_has_In (x : string) (s : JS.StringSet) :
  JS.Set_has x s = true <-> In x s.
Proof.
  unfold JS.Set_has. rewrite existsb_exists. split.
  - intros (y & Hy & Heq). apply String.eqb_eq in Heq. now subst.
  - intros H. exists x. split; [exact H | apply String.eqb_refl].
Qed.

Lemma Set_add_In (x y : string) (s : JS.StringSet) :
  In y (JS.Set_add x s) <-> y = x \/ In y s.
Proof.
  unfold JS.Set_add. destruct (JS.Set_has x s) eqn:Hhas.
  - apply Set_has_In in Hhas. split; [auto |].
    intros [-> | H]; assumption.
  - rewrite in_app_iff. simpl. intuition congruence.
Qed.

Lemma Set_add_NoDup (x : string) (s : JS.StringSet) :
  NoDup s -> NoDup (JS.Set_add x s).
Proof.
  intros Hnd. unfold JS.Set_add. destruct (JS.Set_has x s) eqn:Hhas; [exact Hnd |].
  assert (Hnot : ~ In x s).
  { intros Hin. apply Set_has_In in Hin. congruence. }
  clear Hhas. induction Hnd as [| y l Hy Hl IH]; simpl.
  - constructor; [easy | constructor].
  - constructor.
    + rewrite in_app_iff. simpl. simpl in Hnot. intuition congruence.
    + apply IH. simpl in Hnot. tauto.
Qed.

Lemma addIfTruthy_In (field : option string) (y : string) (s : JS.StringSet) :
  In y (addIfTruthy field s) <-> (field = Some y /\ y <> "") \/ In y s.
Proof.
  destruct field as [x |]; simpl.
  - destruct x as [| c rest]; simpl.
    + split; [auto |]. intros [[H Hne] | H]; [| exact H].
      injection H as <-. now elim Hne.
    + rewrite Set_add_In. split.
      * intros [-> | H]; [left | right]; easy.
      * intros [[H _] | H]; [left | right]; congruence.
  - split; [auto |]. now intros [[H _] | H].
Qed.

Lemma addIfTruthy_NoDup (field : option string) (s : JS.StringSet) :
  NoDup s -> NoDup (addIfTruthy field s).
Proof.
  destruct field as [x |]; simpl; [| easy].
  destruct (JS.truthy_string x); [apply Set_add_NoDup | easy].
Qed.

(** The inner loop leaves the sets alone and adds to the two counters. *)
Lemma countIssue_fold (l : list Issue) (t : Tally) :
  let t' := fold_left countIssue l t in
  t_providers t' = t_providers t /\
  t_models t' = t_models t /\
  t_criticalIssues t' = t_criticalIssues t + countSeverity critical l /\
  t_warnings t' = t_warnings t + (countSeverity high l + countSeverity medium l).
Proof.
  revert t. induction l as [| i rest IH]; intros t.
  - unfold countSeverity. simpl. repeat split; lia.
  - simpl fold_left. specialize (IH (countIssue t i)).
    destruct IH as (Hp & Hm & Hc & Hw). cbv zeta.
    rewrite Hp, Hm, Hc, Hw. unfold countSeverity, countIssue. simpl filter.
    destruct (severity i); simpl; repeat split; lia.
Qed.

Lemma tallyPoint_providers (t : Tally) (p : InferencePoint) :
  t_providers (tallyPoint t p) = addIfTruthy (provider p) (t_providers t).
Proof.
  unfold tallyPoint. rewrite (proj1 (countIssue_fold (issues p) _)).
  destruct (provider p) as [x |], (model p) as [y |]; simpl;
    repeat match goal with
           | |- context [JS.truthy_string ?z] => destruct (JS.truthy_string z)
           end; reflexivity.
Qed.

Lemma tallyPoint_models (t : Tally) (p : InferencePoint) :
  t_models (tallyPoint t p) = addIfTruthy (model p) (t_models t).
Proof.
  unfold tallyPoint.
  rewrite (proj1 (proj2 (countIssue_fold (issues p) _))).
  destruct (provider p) as [x |], (model p) as [y |]; simpl;
    repeat match goal with
           | |- context [JS.truthy_string ?z] => destruct (JS.truthy_string z)
           end; reflexivity.
Qed.

Lemma tallyPoint_counts (t : Tally) (p : InferencePoint) :
  t_criticalIssues (tallyPoint t p)
    = t_criticalIssues t + countSeverity critical (issues p) /\
  t_warnings (tallyPoint t p)
    = t_warnings t
      + (countSeverity high (issues p) + countSeverity medium (issues p)).
Proof.
  unfold tallyPoint.
  match goal with
  | |- context [fold_left countIssue ?l ?t0] =>
      destruct (countIssue_fold l t0) as (_ & _ & Hc & Hw)
  end.
  cbv zeta in Hc, Hw. rewrite Hc, Hw.
  destruct (provider p) as [x |], (model p) as [y |]; simpl;
    repeat match goal with
           | |- context [JS.truthy_string ?z] => destruct (JS.truthy_string z)
           end; split; reflexivity.
Qed.

End Tally.

Section SummaryCounts.

Lemma countSeverity_app (s : Severity) (a b : list Issue) :
  countSeverity s (a ++ b) = countSeverity s a + countSeverity s b.
Proof. unfold countSeverity. now rewrite filter_app, List.length_app. Qed.

(** The four severities partition the issues. *)
Lemma countSeverity_partition (l : list Issue) :
  countSeverity critical l + countSeverity high l
  + countSeverity medium l + countSeverity low l = List.length l.
Proof.
  unfold countSeverity. induction l as [| i rest IH]; [reflexivity |].
  simpl. destruct (severity i); simpl; lia.
Qed.

Lemma tallyPoints_counts (points : list InferencePoint) (t : Tally) :
  t_criticalIssues (fold_left tallyPoint points t)
    = t_criticalIssues t + countSeverity critical (allIssues points) /\
  t_warnings (fold_left tallyPoint points t)
    = t_warnings t
      + (countSeverity high (allIssues points)
         + countSeverity medium (allIssues points)).
Proof.
  revert t. induction points as [| p rest IH]; intros t.
  - unfold countSeverity. simpl. lia.
  - simpl fold_left. destruct (IH (tallyPoint t p)) as [Hc Hw].
    destruct (tallyPoint_counts t p) as [Hc1 Hw1].
    unfold allIssues in *. simpl flat_map.
    rewrite !countSeverity_app. lia.
Qed.

Lemma tallyPoints_providers (points : list InferencePoint) (t : Tally) :
  t_providers (fold_left tallyPoint points t)
    = fold_left (fun s p => addIfTruthy (provider p) s) points (t_providers t).
Proof.
  revert t. induction points as [| p rest IH]; intros t; [reflexivity |].
  simpl. now rewrite IH, tallyPoint_providers.
Qed.

Lemma tallyPoints_models (points : list InferencePoint) (t : Tally) :
  t_models (fold_left tallyPoint points t)
    = fold_left (fun s p => addIfTruthy (model p) s) points (t_models t).
Proof.
  revert t. induction points as [| p rest IH]; intros t; [reflexivity |].
  simpl. now rewrite IH, tallyPoint_models.
Qed.

(** Scanning the points with [if (field) set.add(field)] yields a set
    without repetition that holds what it held before and the non-empty
    fields met. *)
Lemma addIfTruthy_fold (field : InferencePoint -> option string)
    (points : list InferencePoint) (s0 : JS.StringSet) :
  NoDup s0 ->
  let s := fold_left (fun s p => addIfTruthy (field p) s) points s0 in
  NoDup s /\
  forall y : string,
    In y s <->
    In y s0 \/ exists p, In p points /\ field p = Some y /\ y <> "".
Proof.
  revert s0. induction points as [| p rest IH]; intros s0 Hnd; cbv zeta.
  - simpl. split; [exact Hnd |]. intros y. split; [auto |].
    now intros [H | (p & [] & _)].
  - simpl fold_left.
    destruct (IH (addIfTruthy (field p) s0) (addIfTruthy_NoDup _ Hnd))
      as [Hnd' Hin].
    split; [exact Hnd' |]. intros y. rewrite Hin, addIfTruthy_In. split.
    + intros [[[Hf Hne] | H0] | (q & Hq & Hf & Hne)].
      * right. exists p. simpl. auto.
      * now left.
      * right. exists q. simpl. auto.
    + intros [H0 | (q & [<- | Hq] & Hf & Hne)].
      * left. now right.
      * left. left. now split.
      * right. now exists q.
Qed.

End SummaryCounts.

(** C4. In the summary of a result, [criticalIssues] is the number of
    issues, over all points and all issues of each point, whose severity
    is [critical]; [warnings] is the number of those whose severity is
    [high] or [medium]; issues of severity [low] are in neither count, so
    [criticalIssues] plus the number of [low] issues is at most the total
    number of issues. *)
Theorem createResultFromPoints_counts (fileName : string)
    (points : list InferencePoint) (apiCredits : option Api.Credits)
    (now : string) :
  let s := summary (createResultFromPoints fileName points apiCredits now) in
  criticalIssues s = countSeverity critical (allIssues points) /\
  warnings s = countSeverity high (allIssues points)
               + countSeverity medium (allIssues points) /\
  criticalIssues s + warnings s + countSeverity low (allIssues points)
    = List.length (allIssues points) /\
  criticalIssues s + countSeverity low (allIssues points)
    <= List.length (allIssues points).
Proof.
  cbv zeta. simpl.
  destruct (tallyPoints_counts points emptyTally) as [Hc Hw].
  rewrite Hc, Hw. simpl.
  pose proof (countSeverity_partition (allIssues points)) as Hpart.
  repeat split; lia.
Qed.

(** C5. In the summary of a result, [providers] and [models] have no
    repeated element, and a string is in [providers] (in [models]) exactly
    when some point has it as its provider (its model) and it is not the
    empty string: a point whose field is absent or empty adds nothing. *)
Theorem createResultFromPoints_sets (fileName : string)
    (points : list InferencePoint) (apiCredits : option Api.Credits)
    (now : string) :
  let s := summary (createResultFromPoints fileName points apiCredits now) in
  NoDup (providers s) /\
  NoDup (models s) /\
  (forall x : string,
     In x (providers s) <->
     exists p, In p points /\ provider p = Some x /\ x <> "") /\
  (forall x : string,
     In x (models s) <->
     exists p, In p points /\ model p = Some x /\ x <> "").
Proof.
  cbv zeta. simpl. unfold JS.Array_from.
  rewrite tallyPoints_providers, tallyPoints_models. simpl.
  destruct (addIfTruthy_fold provider points (NoDup_nil string)) as [Hp Hpin].
  destruct (addIfTruthy_fold model points (NoDup_nil string)) as [Hm Hmin].
  cbv zeta in Hpin, Hmin.
  repeat split; try assumption.
  - intros H. apply Hpin in H. now destruct H as [[] | H].
  - intros H. apply Hpin. now right.
  - intros H. apply Hmin in H. now destruct H as [[] | H].
  - intros H. apply Hmin. now right.
Qed.

Lemma createResultFromPoints_sets_witness :
  In "openai"
     (providers (summary (createResultFromPoints "a.py" Samples.mixedPoints
                            None (Samples.tick 0)))) /\
  ~ In ""
     (models (summary (createResultFromPoints "a.py" Samples.mixedPoints
                         None (Samples.tick 0)))).
Proof.
  destruct (createResultFromPoints_sets "a.py" Samples.mixedPoints None
              (Samples.tick 0)) as (_ & _ & Hprov & Hmod).
  split.
  - apply Hprov.
    exists (Samples.pointOf (Some "openai") (Some "gpt-4") [critical; low; high]).
    split; [left; reflexivity | split; [reflexivity | discriminate]].
  - intros H. apply Hmod in H. destruct H as (p & _ & _ & Hne). now elim Hne.
Defined.

(** The summary of the sample points, computed. *)
Example createResultFromPoints_mixed :
  summary (createResultFromPoints "a.py" Samples.mixedPoints None (Samples.tick 0))
  = {| totalPoints := 3; criticalIssues := 2; warnings := 2;
       providers := ["openai"]; models := ["gpt-4"; "gpt-4o"] |}.
Proof. reflexivity. Qed.

(** ** Grouping a workspace response by file *)

Section MapFacts.

Variable V : Type.

Lemma Map_has_keys (k : string) (m : JS.Map V) :
  JS.Map_has k m = JS.Set_has k (map fst m).
Proof.
  unfold JS.Map_has, JS.Set_has.
  induction m as [| [k' v] rest IH]; [reflexivity |].
  simpl. destruct (String.eqb k k'); [reflexivity | exact IH].
Qed.

Lemma Map_get_set (k k' : string) (v : V) (m : JS.Map V) :
  JS.Map_get k (JS.Map_set k' v m)
    = if String.eqb k k' then Some v else JS.Map_get k m.
Proof.
  induction m as [| [k0 v0] rest IH]; simpl.
  - reflexivity.
  - destruct (String.eqb k' k0) eqn:E0; simpl.
    + apply String.eqb_eq in E0. subst k0.
      destruct (String.eqb k k'); reflexivity.
    + rewrite IH. destruct (String.eqb k k0) eqn:E1; [| reflexivity].
      apply String.eqb_eq in E1. subst k0.
      rewrite String.eqb_sym in E0. now rewrite E0.
Qed.

Lemma Map_keys_set (k : string) (v : V) (m : JS.Map V) :
  map fst (JS.Map_set k v m) = JS.Set_add k (map fst m).
Proof.
  unfold JS.Set_add, JS.Set_has.
  induction m as [| [k0 v0] rest IH]; simpl; [reflexivity |].
  destruct (String.eqb k k0) eqn:E0; simpl; [reflexivity |].
  rewrite IH. destruct (existsb (String.eqb k) (map fst rest)); reflexivity.
Qed.

(** A map without repeated keys is determined by its keys and its
    lookups. *)
Lemma Map_of_keys_get (F : string -> V) (m : JS.Map V) :
  NoDup (map fst m) ->
  (forall k, In k (map fst m) -> JS.Map_get k m = Some (F k)) ->
  m = map (fun k => (k, F k)) (map fst m).
Proof.
  induction m as [| [k0 v0] rest IH]; intros Hnd Hget; [reflexivity |].
  simpl in *. inversion Hnd as [| ? ? Hnot Hnd']; subst.
  f_equal.
  - specialize (Hget k0 (or_introl eq_refl)).
    rewrite String.eqb_refl in Hget. congruence.
  - apply IH; [exact Hnd' |]. intros k Hk.
    specialize (Hget k (or_intror Hk)).
    destruct (String.eqb k k0) eqn:E; [| exact Hget].
    apply String.eqb_eq in E. subst k. contradiction.
Qed.

End MapFacts.

Section FirstOccurrences.

Lemma firstOccurrences_In (l : list string) (x : string) :
  In x (firstOccurrences l) <-> In x l.
Proof.
  induction l as [| y rest IH]; simpl; [tauto |].
  split.
  - intros [-> | H]; [now left |].
    apply in_remove in H. right. now apply IH.
  - intros [-> | H]; [now left |].
    destruct (string_dec y x) as [-> | Hne]; [now left |].
    right. apply in_in_remove; [congruence | now apply IH].
Qed.

Lemma NoDup_remove_string (x : string) (l : list string) :
  NoDup l -> NoDup (remove string_dec x l).
Proof.
  induction 1 as [| y l Hy Hl IH]; simpl; [constructor |].
  destruct (string_dec x y); [exact IH |].
  constructor; [| exact IH].
  intros H. apply in_remove in H. tauto.
Qed.

Lemma firstOccurrences_NoDup (l : list string) : NoDup (firstOccurrences l).
Proof.
  induction l as [| y rest IH]; simpl; constructor.
  - apply remove_In.
  - now apply NoDup_remove_string.
Qed.

Lemma firstOccurrences_remove (x : string) (l : list string) :
  firstOccurrences (remove string_dec x l)
    = remove string_dec x (firstOccurrences l).
Proof.
  induction l as [| y rest IH]; [reflexivity |].
  simpl. destruct (string_dec x y) as [-> | Hne].
  - rewrite IH. symmetry.
    apply notin_remove. apply remove_In.
  - simpl. rewrite IH. f_equal. apply remove_remove_comm.
Qed.

Lemma remove_split (y x : string) (l a b : list string) :
  remove string_dec y l = a ++ x :: b ->
  exists a' b' : list string,
    l = a' ++ x :: b' /\ remove string_dec y a' = a.
Proof.
  revert a. induction l as [| z rest IH]; intros a Heq.
  - simpl in Heq. now destruct a.
  - simpl in Heq. destruct (string_dec y z) as [<- | Hne].
    + destruct (IH a Heq) as (a' & b' & -> & Ha).
      exists (y :: a'), b'. split; [reflexivity |].
      simpl. destruct (string_dec y y); [exact Ha | congruence].
    + destruct a as [| w a].
      * simpl in Heq. injection Heq as -> _.
        exists [], rest. now split.
      * simpl in Heq. injection Heq as -> Heq.
        destruct (IH a Heq) as (a' & b' & -> & Ha).
        exists (w :: a'), b'. split; [reflexivity |].
        simpl. destruct (string_dec y w); [congruence | now rewrite Ha].
Qed.

(** The order of [firstOccurrences]: before its first occurrence in the
    list, a value is preceded only by values listed before it. *)
Lemma firstOccurrences_order (l a b : list string) (x : string) :
  firstOccurrences l = a ++ x :: b ->
  exists pre post : list string,
    l = pre ++ x :: post /\ ~ In x pre /\ forall y, In y pre -> In y a.
Proof.
  revert a b. induction l as [| y rest IH]; intros a b Heq.
  - simpl in Heq. now destruct a.
  - simpl in Heq. destruct a as [| w a].
    + simpl in Heq. injection Heq as -> _.
      exists [], rest. now repeat split.
    + simpl in Heq. injection Heq as -> Heq.
      assert (Hxy : x <> w).
      { intros ->. apply (remove_In string_dec (firstOccurrences rest) w).
        rewrite Heq. apply in_elt. }
      destruct (@remove_split _ _ _ _ _ Heq) as (a' & b' & Hrest & Ha).
      destruct (IH _ _ Hrest) as (pre & post & -> & Hnot & Hpre).
      exists (w :: pre), post. split; [reflexivity |]. split.
      * simpl. intros [H | H]; [congruence | contradiction].
      * intros z [<- | Hz]; [now left |].
        destruct (string_dec w z) as [-> | Hne]; [now left |].
        right. rewrite <- Ha. apply in_in_remove; [congruence | auto].
Qed.

(** Adding the values of a list one by one to an insertion-ordered set
    appends, after what the set held, the first occurrences of the values
    it did not hold. *)
Lemma Set_add_fold (l : list string) (acc : JS.StringSet) :
  fold_left (fun ks x => JS.Set_add x ks) l acc
    = acc ++ firstOccurrences (filter (fun x => negb (JS.Set_has x acc)) l).
Proof.
  revert acc. induction l as [| x rest IH]; intros acc; simpl.
  - now rewrite app_nil_r.
  - rewrite IH. unfold JS.Set_add.
    destruct (JS.Set_has x acc) eqn:Hhas; simpl; [reflexivity |].
    rewrite <- app_assoc. simpl. do 2 f_equal.
    rewrite <- firstOccurrences_remove. f_equal.
    clear IH. induction rest as [| y rest IH]; [reflexivity |].
    simpl. unfold JS.Set_has at 1. rewrite existsb_app. simpl.
    fold (JS.Set_has y acc). rewrite orb_false_r.
    destruct (JS.Set_has y acc) eqn:Hy; simpl.
    + exact IH.
    + destruct (String.eqb y x) eqn:E; simpl.
      * apply String.eqb_eq in E. subst y.
        destruct (string_dec x x); [exact IH | congruence].
      * apply String.eqb_neq in E.
        destruct (string_dec x y); [congruence |]. now rewrite IH.
Qed.

End FirstOccurrences.

Section Grouping.

(** One step of the grouping loop never throws: it adds the point's file
    to the keys and the transformed point at the end of that file's
    array. *)
Lemma groupPoint_ok (m : JS.Map (list InferencePoint)) (p : Api.InferencePoint) :
  exists m' : JS.Map (list InferencePoint),
    groupPoint m p = Ok m' /\
    map fst m' = JS.Set_add (Api.file p) (map fst m) /\
    forall g : string,
      JS.Map_get g m'
        = if String.eqb g (Api.file p)
          then Some (arrayOf (JS.Map_get (Api.file p) m)
                     ++ [transformInferencePoint p])
          else JS.Map_get g m.
Proof.
  unfold groupPoint, JS.Map_has.
  destruct (JS.Map_get (Api.file p) m) as [arr |] eqn:Hget; simpl.
  - rewrite Hget. eexists. split; [reflexivity |]. split.
    + apply Map_keys_set.
    + intros g. apply Map_get_set.
  - rewrite Map_get_set, String.eqb_refl.
    eexists. split; [reflexivity |]. split.
    + rewrite !Map_keys_set. unfold JS.Set_add at 1.
      replace (JS.Set_has (Api.file p) (JS.Set_add (Api.file p) (map fst m)))
        with true; [reflexivity |].
      symmetry. apply Set_has_In, Set_add_In. now left.
    + intros g. rewrite !Map_get_set.
      destruct (String.eqb g (Api.file p)); reflexivity.
Qed.

Lemma pointsOf_cons (g : string) (p : Api.InferencePoint)
    (rest : list Api.InferencePoint) :
  pointsOf g (p :: rest)
    = if String.eqb g (Api.file p)
      then transformInferencePoint p :: pointsOf g rest
      else pointsOf g rest.
Proof.
  unfold pointsOf. simpl. rewrite (String.eqb_sym (Api.file p) g).
  destruct (String.eqb g (Api.file p)); reflexivity.
Qed.

Lemma pointsOf_nil_iff (g : string) (points : list Api.InferencePoint) :
  pointsOf g points = [] <-> ~ In g (map Api.file points).
Proof.
  induction points as [| p rest IH]; [simpl; tauto |].
  rewrite pointsOf_cons. simpl.
  destruct (String.eqb g (Api.file p)) eqn:E.
  - apply String.eqb_eq in E. split; [discriminate | intros H; elim H; auto].
  - apply String.eqb_neq in E. rewrite IH. intuition congruence.
Qed.

(** The grouping loop never throws.  Its keys are the keys it started
    with and then the new files in order of first appearance; the array
    of a file is what it was, followed by the file's points. *)
Lemma groupPoints_ok (points : list Api.InferencePoint)
    (m : JS.Map (list InferencePoint)) :
  exists m' : JS.Map (list InferencePoint),
    groupPoints m points = Ok m' /\
    map fst m'
      = fold_left (fun ks x => JS.Set_add x ks) (map Api.file points) (map fst m) /\
    forall g : string,
      JS.Map_get g m'
        = match pointsOf g points with
          | [] => JS.Map_get g m
          | l => Some (arrayOf (JS.Map_get g m) ++ l)
          end.
Proof.
  revert m. induction points as [| p rest IH]; intros m.
  - exists m. simpl. auto.
  - destruct (groupPoint_ok m p) as (m1 & Hstep & Hkeys1 & Hget1).
    destruct (IH m1) as (m' & Hrest & Hkeys & Hget).
    exists m'. simpl. rewrite Hstep. simpl. split; [exact Hrest |]. split.
    + now rewrite Hkeys, Hkeys1.
    + intros g. rewrite Hget, Hget1, pointsOf_cons.
      destruct (String.eqb g (Api.file p)) eqn:E.
      * apply String.eqb_eq in E. subst g. simpl.
        destruct (pointsOf (Api.file p) rest); [reflexivity |].
        now rewrite <- app_assoc.
      * reflexivity.
Qed.

(** The map built by the grouping loop from an empty map. *)
Lemma groupPoints_groupsOf (points : list Api.InferencePoint) :
  groupPoints [] points = Ok (groupsOf points).
Proof.
  destruct (groupPoints_ok points []) as (m & Hm & Hkeys & Hget).
  rewrite Hm. f_equal. simpl in Hkeys, Hget.
  rewrite Set_add_fold in Hkeys. simpl in Hkeys.
  assert (Hall : forall l : list string, filter (fun _ => true) l = l).
  { induction l as [| x l IHl]; simpl; [reflexivity | now rewrite IHl]. }
  rewrite Hall in Hkeys.
  unfold groupsOf. rewrite <- Hkeys.
  apply Map_of_keys_get.
  - rewrite Hkeys. apply firstOccurrences_NoDup.
  - intros k Hk. rewrite Hkeys in Hk. apply (proj1 (firstOccurrences_In _ _)) in Hk.
    rewrite Hget. destruct (pointsOf k points) eqn:E; [| reflexivity].
    apply (proj1 (pointsOf_nil_iff _ _)) in E. contradiction.
Qed.

(** When no group is empty, the second loop pushes one result per group. *)
Lemma pushResult_fold (h : Host) (apiCredits : option Api.Credits)
    (entries : JS.Map (list InferencePoint))
    (results : list AnalysisResult) (reads : nat) :
  Forall (fun e => snd e <> []) entries ->
  fold_left (pushResult h apiCredits) entries (results, reads)
    = (results ++ resultsFrom h apiCredits reads entries,
       reads + List.length entries).
Proof.
  intros Hall. revert results reads.
  induction Hall as [| [f pts] rest Hne Hrest IH]; intros results reads.
  - simpl. now rewrite app_nil_r, Nat.add_0_r.
  - simpl in Hne. destruct pts as [| q pts]; [contradiction |].
    simpl. rewrite IH. rewrite <- app_assoc. simpl.
    f_equal. lia.
Qed.

Lemma groupsOf_nonempty (points : list Api.InferencePoint) :
  Forall (fun e => snd e <> []) (groupsOf points).
Proof.
  unfold groupsOf. apply Forall_map, Forall_forall. intros f Hf. simpl.
  apply (proj1 (firstOccurrences_In _ _)) in Hf. intros E.
  apply (proj1 (pointsOf_nil_iff _ _)) in E. contradiction.
Qed.

(** Lines 231-250 return one result per group of the response. *)
Lemma groupResults_groupsOf (h : Host) (r : Api.AnalysisResponse) :
  groupResults h r
    = Ok (resultsFrom h (Api.credits r) 0 (groupsOf (Api.inferencePoints r))).
Proof.
  unfold groupResults. rewrite groupPoints_groupsOf. simpl.
  now rewrite (pushResult_fold h (Api.credits r) [] 0
                 (groupsOf_nonempty (Api.inferencePoints r))).
Qed.

Lemma resultsFrom_files (h : Host) (c : option Api.Credits) (k : nat)
    (entries : JS.Map (list InferencePoint)) :
  map result_file (resultsFrom h c k entries) = map fst entries.
Proof.
  revert k. induction entries as [| [f pts] rest IH]; intros k; [reflexivity |].
  simpl. now rewrite IH.
Qed.

Lemma resultsFrom_In (h : Host) (c : option Api.Credits) (k : nat)
    (entries : JS.Map (list InferencePoint)) (res : AnalysisResult) :
  In res (resultsFrom h c k entries) ->
  In (result_file res, inferencePoints res) entries.
Proof.
  revert k. induction entries as [| [f pts] rest IH]; intros k; [easy |].
  simpl. intros [<- | H]; [now left | right; eauto].
Qed.

Lemma resultsFrom_totalPoints (h : Host) (c : option Api.Credits) (k : nat)
    (entries : JS.Map (list InferencePoint)) (res : AnalysisResult) :
  In res (resultsFrom h c k entries) ->
  totalPoints (summary res) = List.length (inferencePoints res).
Proof.
  revert k. induction entries as [| [f pts] rest IH]; intros k; [easy |].
  simpl. intros [<- | H]; [reflexivity | eauto].
Qed.

Lemma groupsOf_files (points : list Api.InferencePoint) :
  map fst (groupsOf points) = firstOccurrences (map Api.file points).
Proof. unfold groupsOf. rewrite map_map. simpl. apply map_id. Qed.

Lemma groupsOf_In (points : list Api.InferencePoint) (f : string)
    (l : list InferencePoint) :
  In (f, l) (groupsOf points) ->
  In f (map Api.file points) /\ l = pointsOf f points.
Proof.
  unfold groupsOf. rewrite in_map_iff. intros (g & Heq & Hg).
  injection Heq as <- <-. split; [| reflexivity].
  now apply (proj1 (firstOccurrences_In _ _)).
Qed.

End Grouping.

(** C7. With a token configured, [analyzeWorkspace] turns an analysis
    response into one result per distinct [file] value of its points: the
    result files are the distinct files in order of first appearance,
    without repetition, and each result holds exactly the points tagged
    with its file, transformed, in source order.  The order is also
    stated without [firstOccurrences]: in the response, the first point of
    a result's file is preceded only by points of files of earlier
    results. *)
Theorem analyzeWorkspace_groups (h : Host) (r : Api.AnalysisResponse)
    (token : string) :
  validateToken h = Ok token ->
  exists rs : list AnalysisResult,
    analyzeWorkspace h (Api.Analysis r) = Ok rs /\
    map result_file rs
      = firstOccurrences (map Api.file (Api.inferencePoints r)) /\
    NoDup (map result_file rs) /\
    (forall f : string,
       In f (map result_file rs)
       <-> In f (map Api.file (Api.inferencePoints r))) /\
    (forall res : AnalysisResult,
       In res rs ->
       inferencePoints res
         = map transformInferencePoint
             (filter (fun p => String.eqb (Api.file p) (result_file res))
                     (Api.inferencePoints r)) /\
       totalPoints (summary res) = List.length (inferencePoints res)) /\
    (forall (before after : list string) (f : string),
       map result_file rs = before ++ f :: after ->
       exists pre post : list string,
         map Api.file (Api.inferencePoints r) = pre ++ f :: post /\
         ~ In f pre /\ forall g, In g pre -> In g before).
Proof.
  intros Htoken.
  exists (resultsFrom h (Api.credits r) 0 (groupsOf (Api.inferencePoints r))).
  assert (Hfiles :
    map result_file
        (resultsFrom h (Api.credits r) 0 (groupsOf (Api.inferencePoints r)))
    = firstOccurrences (map Api.file (Api.inferencePoints r))).
  { now rewrite resultsFrom_files, groupsOf_files. }
  split; [| split; [| split; [| split; [| split]]]].
  - unfold analyzeWorkspace. rewrite Htoken. simpl.
    apply groupResults_groupsOf.
  - exact Hfiles.
  - rewrite Hfiles. apply firstOccurrences_NoDup.
  - intros f. rewrite Hfiles. apply firstOccurrences_In.
  - intros res Hres. split.
    + apply resultsFrom_In, groupsOf_In in Hres. now destruct Hres.
    + now apply resultsFrom_totalPoints in Hres.
  - intros before after f Hsplit. rewrite Hfiles in Hsplit.
    now apply firstOccurrences_order with (b := after).
Qed.

Lemma analyzeWorkspace_groups_witness :
  exists rs : list AnalysisResult,
    analyzeWorkspace Samples.settingHost (Api.Analysis Samples.twoFilesResponse)
      = Ok rs /\
    map result_file rs = ["b.ts"; "c.ts"].
Proof.
  destruct (@analyzeWorkspace_groups Samples.settingHost
              Samples.twoFilesResponse "pk_settings" eq_refl)
    as (rs & Hrun & Hfiles & _).
  exists rs. split; [exact Hrun | exact Hfiles].
Defined.

(** The scenario of the two files, computed: "b.ts" with two points, then
    "c.ts" with one. *)
Example analyzeWorkspace_twoFiles :
  exists rs : list AnalysisResult,
    analyzeWorkspace Samples.settingHost (Api.Analysis Samples.twoFilesResponse)
      = Ok rs /\
    map (fun res => (result_file res, map line (inferencePoints res),
                     totalPoints (summary res))) rs
      = [("b.ts", [3%Z; 12%Z], 2); ("c.ts", [7%Z], 1)].
Proof. eexists. split; reflexivity. Qed.

Example firstOccurrences_sample :
  firstOccurrences ["b"; "c"; "b"; "a"; "c"; "a"] = ["b"; "c"; "a"].
Proof. reflexivity. Qed.

(** C10. Every result returned by [analyzeWorkspace] holds at least one
    point, so its [totalPoints] is at least 1, and its file is the file of
    some point of the response: a file without points gets no result. *)
Theorem analyzeWorkspace_nonempty (h : Host) (r : Api.AnalysisResponse)
    (rs : list AnalysisResult) (res : AnalysisResult) :
  analyzeWorkspace h (Api.Analysis r) = Ok rs ->
  In res rs ->
  1 <= totalPoints (summary res) /\
  inferencePoints res <> [] /\
  In (result_file res) (map Api.file (Api.inferencePoints r)).
Proof.
  unfold analyzeWorkspace. destruct (validateToken h); simpl; [| discriminate].
  rewrite groupResults_groupsOf. intros Hrun Hres.
  injection Hrun as <-.
  pose proof (resultsFrom_totalPoints _ _ _ _ _ Hres) as Htotal.
  apply resultsFrom_In, groupsOf_In in Hres. destruct Hres as [Hfile Hpts].
  assert (Hne : inferencePoints res <> []).
  { rewrite Hpts. intros E.
    apply (proj1 (pointsOf_nil_iff _ _)) in E. contradiction. }
  repeat split; try assumption.
  rewrite Htotal. destruct (inferencePoints res); [contradiction | simpl; lia].
Qed.

Lemma analyzeWorkspace_nonempty_witness :
  1 <= totalPoints
         (summary
            (createResultFromPoints "c.ts"
               (pointsOf "c.ts" (Api.inferencePoints Samples.twoFilesResponse))
               (Api.credits Samples.twoFilesResponse) (Samples.tick 1))).
Proof.
  refine (proj1 (@analyzeWorkspace_nonempty Samples.settingHost
                   Samples.twoFilesResponse _ _ eq_refl _)).
  right. left. reflexivity.
Defined.

(** ** Which points a result may hold *)

Section Paths.

Lemma append_nil_r (s : string) : (s ++ "")%string = s.
Proof. induction s as [| c rest IH]; simpl; [reflexivity | now rewrite IH]. Qed.

Lemma append_assoc (a b c : string) :
  ((a ++ b) ++ c)%string = (a ++ (b ++ c))%string.
Proof. induction a as [| x rest IH]; simpl; [reflexivity | now rewrite IH]. Qed.

Lemma length_append (a b : string) :
  String.length (a ++ b) = String.length a + String.length b.
Proof. induction a as [| x rest IH]; simpl; [reflexivity | now rewrite IH]. Qed.

Lemma hasChar_append (c : ascii) (a b : string) :
  hasChar c (a ++ b) = hasChar c a || hasChar c b.
Proof.
  induction a as [| x rest IH]; simpl; [reflexivity |].
  now rewrite IH, orb_assoc.
Qed.

Lemma substring_full (s : string) : substring 0 (String.length s) s = s.
Proof. induction s as [| c rest IH]; simpl; [reflexivity | now rewrite IH]. Qed.

Lemma substring_split (s : string) (k : nat) :
  k <= String.length s ->
  s = (substring 0 k s ++ substring k (String.length s - k) s)%string.
Proof.
  revert k. induction s as [| c rest IH]; intros k Hk.
  - simpl in Hk. replace k with 0 by lia. reflexivity.
  - destruct k as [| k].
    + simpl. now rewrite substring_full.
    + simpl in *. f_equal. apply IH. lia.
Qed.

Lemma substring_append_r (pre suffix : string) :
  substring (String.length pre) (String.length suffix) (pre ++ suffix) = suffix.
Proof.
  induction pre as [| c rest IH]; simpl; [apply substring_full | exact IH].
Qed.

(** [endsWith] decides [hasSuffix]. *)
Lemma endsWith_hasSuffix (s suffix : string) :
  JS.endsWith s suffix = true <-> hasSuffix s suffix.
Proof.
  unfold JS.endsWith, hasSuffix. split.
  - destruct (Nat.leb (String.length suffix) (String.length s)) eqn:Hle;
      [| discriminate].
    apply Nat.leb_le in Hle. intros Heq. apply String.eqb_eq in Heq.
    exists (substring 0 (String.length s - String.length suffix) s).
    assert (Hk : String.length s - String.length suffix <= String.length s)
      by lia.
    pose proof (substring_split s Hk) as Hsplit.
    replace (String.length s - (String.length s - String.length suffix))
      with (String.length suffix) in Hsplit by lia.
    now rewrite Heq in Hsplit.
  - intros (pre & ->). rewrite length_append.
    replace (Nat.leb (String.length suffix)
               (String.length pre + String.length suffix)) with true
      by (symmetry; apply Nat.leb_le; lia).
    replace (String.length pre + String.length suffix - String.length suffix)
      with (String.length pre) by lia.
    rewrite substring_append_r. apply String.eqb_refl.
Qed.

Lemma split_aux_nonempty (sep : ascii) (s cur : string) :
  JS.split_aux sep cur s <> [].
Proof.
  revert cur. induction s as [| c rest IH]; intros cur; simpl; [discriminate |].
  destruct (Ascii.eqb c sep); [discriminate | apply IH].
Qed.

Lemma pop_cons (A : Type) (x : A) (l : list A) :
  l <> [] -> JS.pop (x :: l) = JS.pop l.
Proof. destruct l; [contradiction | reflexivity]. Qed.

(** The last segment produced by [split]: without a separator in what is
    left to read it is the current segment followed by the rest; otherwise
    it is what follows the last separator. *)
Lemma split_aux_pop (sep : ascii) (s cur : string) :
  hasChar sep cur = false ->
  exists leaf : string,
    JS.pop (JS.split_aux sep cur s) = Some leaf /\
    hasChar sep leaf = false /\
    ((cur ++ s)%string = leaf \/
     exists dir : string, s = (dir ++ String sep leaf)%string).
Proof.
  revert cur. induction s as [| c rest IH]; intros cur Hcur.
  - exists cur. simpl. rewrite append_nil_r. auto.
  - simpl. destruct (Ascii.eqb c sep) eqn:Hc.
    + apply Ascii.eqb_eq in Hc. subst c.
      rewrite pop_cons by apply split_aux_nonempty.
      destruct (IH "" eq_refl) as (leaf & Hpop & Hleaf & Hshape).
      exists leaf. split; [exact Hpop |]. split; [exact Hleaf |]. right.
      destruct Hshape as [Heq | (dir & Heq)].
      * exists "". simpl in *. now rewrite Heq.
      * exists (String sep dir). simpl. now rewrite Heq.
    + destruct (IH (cur ++ String c "")%string) as (leaf & Hpop & Hleaf & Hshape).
      { rewrite hasChar_append, Hcur. simpl. now rewrite Hc. }
      exists leaf. split; [exact Hpop |]. split; [exact Hleaf |].
      destruct Hshape as [Heq | (dir & Heq)].
      * left. rewrite <- Heq. now rewrite append_assoc.
      * right. exists (String c dir). simpl. now rewrite Heq.
Qed.

(** [fileName.split('/').pop() || ''] is the leaf name of [fileName]. *)
Lemma leafName_isLeafNameOf (fileName : string) :
  isLeafNameOf (leafName fileName) fileName.
Proof.
  unfold leafName, JS.split.
  destruct (split_aux_pop "/" fileName "" eq_refl)
    as (leaf & Hpop & Hleaf & Hshape).
  rewrite Hpop. simpl.
  replace (if JS.truthy_string leaf then leaf else "") with leaf
    by (destruct leaf; reflexivity).
  split; [exact Hleaf |].
  destruct Hshape as [Heq | (dir & Heq)]; [left | right].
  - simpl in Heq. congruence.
  - exists dir. exact Heq.
Qed.

Lemma last_segment_unique (d1 d2 l1 l2 : string) :
  (d1 ++ "/" ++ l1)%string = (d2 ++ "/" ++ l2)%string ->
  hasChar "/" l1 = false -> hasChar "/" l2 = false -> l1 = l2.
Proof.
  revert d2. induction d1 as [| c d1 IH]; intros d2 Heq H1 H2.
  - destruct d2 as [| c d2]; simpl in Heq.
    + now injection Heq.
    + injection Heq as <- Heq. subst l1.
      rewrite hasChar_append in H1. simpl in H1.
      now rewrite orb_true_r in H1.
  - destruct d2 as [| c' d2]; simpl in Heq.
    + injection Heq as -> Heq. subst l2.
      rewrite hasChar_append in H2. simpl in H2.
      now rewrite orb_true_r in H2.
    + injection Heq as _ Heq. now apply (IH d2).
Qed.

(** A path has one leaf name. *)
Lemma isLeafNameOf_unique (leaf leaf' path : string) :
  isLeafNameOf leaf path -> isLeafNameOf leaf' path -> leaf = leaf'.
Proof.
  intros [H1 [E1 | (d1 & E1)]] [H2 [E2 | (d2 & E2)]].
  - congruence.
  - rewrite <- E1, E2, hasChar_append in H1. simpl in H1.
    now rewrite orb_true_r in H1.
  - rewrite <- E2, E1, hasChar_append in H2. simpl in H2.
    now rewrite orb_true_r in H2.
  - rewrite E1 in E2. now apply (@last_segment_unique d1 d2 leaf leaf').
Qed.

Lemma matchesFile_belongsTo (fileName : string) (p : Api.InferencePoint) :
  matchesFile fileName p = true -> belongsTo (Api.file p) fileName.
Proof.
  unfold matchesFile, belongsTo. intros H.
  apply orb_true_iff in H as [H | H].
  - left. now apply String.eqb_eq.
  - right. exists (leafName fileName).
    split; [apply leafName_isLeafNameOf | now apply endsWith_hasSuffix].
Qed.

End Paths.

(** C8. In every result returned, by [analyzeFile] or by
    [analyzeWorkspace], the [file] of each point equals the file of the
    result or ends with the leaf name of the file of the result; in the
    results of [analyzeWorkspace] it always equals it. *)
Theorem results_hold_their_points :
  (forall (h : Host) (fileName : string) (response : Api.Response)
          (res : AnalysisResult) (p : InferencePoint),
     analyzeFile h fileName response = Ok res ->
     In p (inferencePoints res) ->
     belongsTo (file p) (result_file res)) /\
  (forall (h : Host) (response : Api.Response) (rs : list AnalysisResult)
          (res : AnalysisResult) (p : InferencePoint),
     analyzeWorkspace h response = Ok rs ->
     In res rs -> In p (inferencePoints res) ->
     file p = result_file res /\ belongsTo (file p) (result_file res)).
Proof.
  split.
  - intros h fileName response res p Hrun Hp.
    unfold analyzeFile in Hrun.
    destruct (validateToken h); simpl in Hrun; [| discriminate].
    destruct response as [r | e]; [| discriminate].
    injection Hrun as <-. simpl in *.
    apply in_map_iff in Hp. destruct Hp as (q & <- & Hq).
    apply filter_In in Hq. destruct Hq as [_ Hmatch].
    simpl. now apply matchesFile_belongsTo.
  - intros h response rs res p Hrun Hres Hp.
    unfold analyzeWorkspace in Hrun.
    destruct (validateToken h); simpl in Hrun; [| discriminate].
    destruct response as [r | e]; [| discriminate].
    rewrite groupResults_groupsOf in Hrun. injection Hrun as <-.
    apply resultsFrom_In, groupsOf_In in Hres. destruct Hres as [_ Hpts].
    rewrite Hpts in Hp. unfold pointsOf in Hp.
    apply in_map_iff in Hp. destruct Hp as (q & <- & Hq).
    apply filter_In in Hq. destruct Hq as [_ Heq].
    apply String.eqb_eq in Heq. simpl.
    split; [exact Heq | left; exact Heq].
Qed.

Lemma results_hold_their_points_witness :
  belongsTo "src/app.ts" "/work/src/app.ts".
Proof.
  refine (proj1 results_hold_their_points Samples.settingHost
            "/work/src/app.ts" (Api.Analysis Samples.singleFileResponse)
            (transformApiResponse "/work/src/app.ts"
               Samples.singleFileResponse (Samples.tick 0))
            (transformInferencePoint (Samples.sparsePoint "src/app.ts" 5))
            eq_refl _).
  right. left. reflexivity.
Defined.

(** The single-file path on the sample answer: the point of "lib/other.ts"
    is left out; the points whose file ends with "app.ts" are kept. *)
Example analyzeFile_sample :
  exists res : AnalysisResult,
    analyzeFile Samples.settingHost "/work/src/app.ts"
      (Api.Analysis Samples.singleFileResponse) = Ok res /\
    result_file res = "/work/src/app.ts" /\
    map file (inferencePoints res)
      = ["/work/src/app.ts"; "src/app.ts"; "vendor/app.ts"].
Proof. eexists. repeat split. Qed.

Example leafName_samples :
  leafName "/work/src/app.ts" = "app.ts" /\
  leafName "app.ts" = "app.ts" /\
  leafName "src/" = "" /\
  leafName "" = "".
Proof. repeat split. Qed.

Example Number_toString_samples :
  JS.Number_toString 0 = "0" /\ JS.Number_toString 10 = "10" /\
  JS.Number_toString 1234 = "1234".
Proof. repeat split. Qed.

Example trim_samples :
  JS.trim "  pk_1 2  " = "pk_1 2" /\ JS.trim "   " = "" /\ JS.trim "" = "".
Proof. repeat split. Qed.

(* ------------------------------------------------------------------ *)
(** * Further properties of the runner *)

(** ** The token *)

Section Token.

Variable h : Host.

Lemma getToken_setting (s : string) :
  config_token h = Some s -> JS.trim s <> "" -> getToken h = Some (JS.trim s).
Proof.
  intros Hs Hne. unfold getToken. rewrite Hs.
  destruct s as [| c rest]; [now elim Hne |].
  destruct (JS.trim (String c rest)); [now elim Hne | reflexivity].
Qed.

Lemma getToken_fallback :
  (config_token h = None \/
   exists s : string, config_token h = Some s /\ JS.trim s = "") ->
  getToken h = env_PEAKINFER_TOKEN h.
Proof.
  intros [Hnone | (s & Hs & Ht)]; unfold getToken.
  - now rewrite Hnone.
  - rewrite Hs, Ht. simpl. now rewrite andb_false_r.
Qed.

(** The setting is either usable or it is not. *)
Lemma config_token_cases :
  (exists s : string, config_token h = Some s /\ JS.trim s <> "") \/
  (config_token h = None \/
   exists s : string, config_token h = Some s /\ JS.trim s = "").
Proof.
  destruct (config_token h) as [s |]; [| right; now left].
  destruct (string_dec (JS.trim s) "") as [E | E].
  - right. right. now exists s.
  - left. now exists s.
Qed.

Lemma validateToken_getToken (t : string) :
  validateToken h = Ok t <-> getToken h = Some t /\ t <> "".
Proof.
  unfold validateToken. destruct (getToken h) as [u |].
  - destruct u as [| c rest]; simpl.
    + split; [discriminate | intros [E Hne]; injection E as <-; now elim Hne].
    + split.
      * intros E. injection E as <-. now split.
      * intros [E _]. now injection E as <-.
  - split; [discriminate | now intros [E _]].
Qed.

Lemma validateToken_throws :
  (forall t : string, validateToken h <> Ok t) ->
  validateToken h = Throw missingTokenMessage.
Proof.
  unfold validateToken. intros Hno. destruct (getToken h) as [u |]; [| reflexivity].
  destruct (JS.truthy_string u); [| reflexivity].
  now elim (Hno u).
Qed.

End Token.

(** X1. [validateToken] succeeds with [t] exactly when the setting,
    trimmed, is the non-empty [t], or the setting is absent or blank and the
    environment variable is the non-empty [t] (taken as it is, not
    trimmed); in every other case it throws the "token not configured"
    error. *)
Theorem validateToken_sources (h : Host) :
  (forall t : string,
     validateToken h = Ok t <->
     (exists s : string,
        config_token h = Some s /\ JS.trim s = t /\ t <> "") \/
     ((config_token h = None \/
       exists s : string, config_token h = Some s /\ JS.trim s = "") /\
      env_PEAKINFER_TOKEN h = Some t /\ t <> "")) /\
  ((forall t : string, validateToken h <> Ok t) ->
   validateToken h = Throw missingTokenMessage).
Proof.
  split; [| apply validateToken_throws].
  intros t. rewrite validateToken_getToken. split.
  - intros [Hget Hne].
    destruct (config_token_cases h) as [(s & Hs & Hts) | Hblank].
    + left. exists s. rewrite (getToken_setting h Hs Hts) in Hget.
      injection Hget as <-. auto.
    + right. rewrite (getToken_fallback h Hblank) in Hget. auto.
  - intros [(s & Hs & <- & Hne) | (Hblank & Henv & Hne)].
    + split; [now apply getToken_setting | exact Hne].
    + split; [| exact Hne]. now rewrite getToken_fallback.
Qed.

Lemma validateToken_sources_witness :
  validateToken Samples.settingHost = Ok "pk_settings" /\
  validateToken Scenarios.blankEnvHost = Ok " " /\
  validateToken Scenarios.noTokenHost = Throw missingTokenMessage.
Proof.
  split; [| split].
  - apply (proj1 (validateToken_sources Samples.settingHost)).
    left. exists " pk_settings ". repeat split. discriminate.
  - apply (proj1 (validateToken_sources Scenarios.blankEnvHost)).
    right. split; [now left | split; [reflexivity | discriminate]].
  - apply (proj2 (validateToken_sources Scenarios.noTokenHost)).
    intros t. discriminate.
Defined.

(** X2. A token that comes from the setting is returned without the
    white space around it: it is what remains of the setting between two
    runs of white space, it is not empty, and it neither starts nor ends
    with white space. *)
Theorem validateToken_setting_trimmed (h : Host) (s : string) :
  config_token h = Some s -> JS.trim s <> "" ->
  exists t a b : string,
    validateToken h = Ok t /\ t <> "" /\
    s = (a ++ t ++ b)%string /\
    whiteSpaceOnly a = true /\ whiteSpaceOnly b = true /\
    notWhiteSpace (firstChar t) /\ notWhiteSpace (lastChar t).
Proof.
  intros Hs Hne.
  destruct (trim_decompose s) as (a & b & Heq & Ha & Hb & Hf & Hl).
  exists (JS.trim s), a, b. repeat split; try assumption.
  apply validateToken_getToken. split; [now apply getToken_setting | exact Hne].
Qed.

Lemma validateToken_setting_trimmed_witness :
  exists t a b : string,
    validateToken Samples.settingHost = Ok t /\ t <> "" /\
    " pk_settings " = (a ++ t ++ b)%string /\
    whiteSpaceOnly a = true /\ whiteSpaceOnly b = true /\
    notWhiteSpace (firstChar t) /\ notWhiteSpace (lastChar t).
Proof.
  apply (@validateToken_setting_trimmed Samples.settingHost " pk_settings ").
  - reflexivity.
  - discriminate.
Defined.

(** ** Requests and failures *)

Section Collector.

Variable vs : VSCode.

Lemma collectFile_fold (l : list Uri) (acc : list FileInfo) :
  fold_left (collectFile vs) l acc = acc ++ flat_map (keptFile vs) l.
Proof.
  revert acc. induction l as [| u rest IH]; intros acc; simpl.
  - now rewrite app_nil_r.
  - rewrite IH. unfold collectFile, keptFile.
    destruct (openTextDocument vs u) as [text | e]; [| reflexivity].
    destruct (N.ltb (N.of_nat (String.length text)) maxContentLength);
      [now rewrite <- app_assoc | reflexivity].
Qed.

Lemma firstn_min_length (A : Type) (n : nat) (l : list A) :
  firstn (Nat.min (List.length l) n) l = firstn n l.
Proof.
  destruct (Nat.le_ge_cases n (List.length l)) as [H | H].
  - now rewrite Nat.min_r.
  - rewrite Nat.min_l by exact H.
    now rewrite firstn_all, firstn_all2.
Qed.

Lemma collectFiles_flat_map (fileUris : list Uri) :
  collectFiles vs fileUris = flat_map (keptFile vs) (firstn maxFiles fileUris).
Proof.
  unfold collectFiles. now rewrite collectFile_fold, firstn_min_length.
Qed.

Lemma keptFile_length (u : Uri) : List.length (keptFile vs u) <= 1.
Proof.
  unfold keptFile. destruct (openTextDocument vs u); [| simpl; lia].
  destruct (N.ltb _ _); simpl; lia.
Qed.

Lemma flat_map_keptFile_length (l : list Uri) :
  List.length (flat_map (keptFile vs) l) <= List.length l.
Proof.
  induction l as [| u rest IH]; [reflexivity |].
  simpl. rewrite List.length_app. pose proof (keptFile_length u). lia.
Qed.

Lemma keptFile_In (u : Uri) (f : FileInfo) :
  In f (keptFile vs u) <->
  openTextDocument vs u = Ok (content f) /\ path f = fsPath u /\
  (N.of_nat (String.length (content f)) < maxContentLength)%N.
Proof.
  unfold keptFile. destruct (openTextDocument vs u) as [text | e].
  - destruct (N.ltb (N.of_nat (String.length text)) maxContentLength) eqn:Hlt.
    + apply N.ltb_lt in Hlt. simpl. split.
      * intros [<- | []]. now repeat split.
      * intros (Hopen & Hpath & _). left. injection Hopen as ->.
        destruct f as [p c]. simpl in *. now subst.
    + apply N.ltb_ge in Hlt. simpl. split; [easy |].
      intros (Hopen & _ & Hsmall). injection Hopen as ->. lia.
  - simpl. split; [easy | now intros (Hopen & _)].
Qed.

End Collector.

(** X3. The collecting loop of [analyzeWorkspace] gathers at most 50
    files, each with a text shorter than 100000; a file is gathered exactly
    when it is one of the first 50 found, it can be opened, and its text
    is shorter than 100000.  A file that cannot be opened is skipped and
    does not stop the loop. *)
Theorem collectFiles_bounds (vs : VSCode) (fileUris : list Uri) :
  List.length (collectFiles vs fileUris) <= 50 /\
  List.length (collectFiles vs fileUris) <= List.length fileUris /\
  (forall f : FileInfo,
     In f (collectFiles vs fileUris) <->
     exists u : Uri,
       In u (firstn 50 fileUris) /\
       openTextDocument vs u = Ok (content f) /\
       path f = fsPath u /\
       (N.of_nat (String.length (content f)) < 100000)%N).
Proof.
  rewrite collectFiles_flat_map.
  pose proof (flat_map_keptFile_length vs (firstn maxFiles fileUris)) as Hlen.
  rewrite length_firstn in Hlen. unfold maxFiles in *.
  split; [lia |]. split; [lia |].
  intros f. rewrite in_flat_map. split.
  - intros (u & Hu & Hf). exists u. split; [exact Hu |].
    now apply keptFile_In.
  - intros (u & Hu & Hf). exists u. split; [exact Hu |].
    now apply keptFile_In.
Qed.

Lemma collectFiles_bounds_witness :
  In (mkFileInfo "/w/lib/c.py" "c = 3")
     (collectFiles Scenarios.editor
        [Scenarios.uriA; Scenarios.uriB; Scenarios.uriC]).
Proof.
  apply (proj2 (proj2 (collectFiles_bounds Scenarios.editor
                         [Scenarios.uriA; Scenarios.uriB; Scenarios.uriC]))).
  exists Scenarios.uriC. simpl. repeat split.
  - right. right. now left.
Defined.

Section Runs.

Variables (h : Host) (vs : VSCode) (fetch : Fetch).

(** With a token, the workspace run is the grouping of the claims applied
    to the answer of the one request it makes. *)
Lemma runAnalyzeWorkspace_with_token (token : string) :
  validateToken h = Ok token ->
  let request :=
    buildRequest token
      (collectFiles vs (findFiles vs includeGlob (excludeGlob vs)))
      (JS.nullish (config_includeBenchmarks vs) true) in
  requestsOf (fst (runAnalyzeWorkspace h vs fetch)) = [request] /\
  snd (runAnalyzeWorkspace h vs fetch)
    = (response <- fetch request ;; analyzeWorkspace h response).
Proof.
  intros Htoken. cbv zeta. unfold runAnalyzeWorkspace, analyzeWorkspace.
  rewrite Htoken. unfold callAnalysisAPI. simpl.
  destruct (fetch _) as [[r | e] | msg]; simpl; split; reflexivity.
Qed.

(** With a token and a readable document, the single-file run is
    [analyzeFile] of the claims applied to the answer of the one request. *)
Lemma runAnalyzeFile_with_token (token text : string) (fileUri : Uri) :
  validateToken h = Ok token ->
  openTextDocument vs fileUri = Ok text ->
  let request :=
    buildRequest token [mkFileInfo (fsPath fileUri) text]
      (JS.nullish (config_includeBenchmarks vs) true) in
  requestsOf (fst (runAnalyzeFile h vs fetch fileUri)) = [request] /\
  snd (runAnalyzeFile h vs fetch fileUri)
    = (response <- fetch request ;; analyzeFile h (fsPath fileUri) response).
Proof.
  intros Htoken Hopen. cbv zeta. unfold runAnalyzeFile, analyzeFile.
  rewrite Htoken, Hopen. unfold callAnalysisAPI. simpl.
  destruct (fetch _) as [[r | e] | msg]; simpl; split; reflexivity.
Qed.

End Runs.

(** X4. With a token, the workspace run sends exactly one request.  It
    carries the validated token as [Bearer] authorization, at most 50
    files, each shorter than 100000, and the benchmarks layer unless the
    [includeBenchmarks] setting is [false]; an unset setting counts as
    [true]. *)
Theorem runAnalyzeWorkspace_request (h : Host) (vs : VSCode) (fetch : Fetch)
    (token : string) :
  validateToken h = Ok token ->
  exists request : Request,
    requestsOf (fst (runAnalyzeWorkspace h vs fetch)) = [request] /\
    In ("Authorization", ("Bearer " ++ token)%string) (headers request) /\
    List.length (body_files request) <= 50 /\
    Forall (fun f => (N.of_nat (String.length (content f)) < 100000)%N)
           (body_files request) /\
    (body_layers_benchmarks request = None <->
     config_includeBenchmarks vs = Some false).
Proof.
  intros Htoken.
  destruct (runAnalyzeWorkspace_with_token h vs fetch Htoken) as [Hreq _].
  cbv zeta in Hreq. eexists. split; [exact Hreq |]. simpl.
  pose proof (collectFiles_bounds vs (findFiles vs includeGlob (excludeGlob vs)))
    as (Hlen & _ & Hin).
  split; [right; now left |]. split; [exact Hlen |]. split.
  - apply Forall_forall. intros f Hf. apply Hin in Hf.
    now destruct Hf as (u & _ & _ & _ & Hsmall).
  - destruct (config_includeBenchmarks vs) as [[|] |]; simpl;
      split; congruence.
Qed.

Lemma runAnalyzeWorkspace_request_witness :
  exists request : Request,
    requestsOf (fst (runAnalyzeWorkspace Samples.settingHost Scenarios.editor
                       Scenarios.twoFilesFetch)) = [request] /\
    In ("Authorization", "Bearer pk_settings") (headers request) /\
    List.length (body_files request) <= 50 /\
    Forall (fun f => (N.of_nat (String.length (content f)) < 100000)%N)
           (body_files request) /\
    (body_layers_benchmarks request = None <->
     config_includeBenchmarks Scenarios.editor = Some false).
Proof.
  exact (@runAnalyzeWorkspace_request Samples.settingHost Scenarios.editor
           Scenarios.twoFilesFetch "pk_settings" eq_refl).
Defined.

(** X5. With a token, the single-file run first reads the document.  If
    it cannot be opened the run ends with the editor's error and no request
    is sent.  Otherwise exactly one request is sent, whose only file is
    the document with its whole text: the limit of 100000 of the workspace
    run does not apply. *)
Theorem runAnalyzeFile_request (h : Host) (vs : VSCode) (fetch : Fetch)
    (fileUri : Uri) (token : string) :
  validateToken h = Ok token ->
  (forall e : string,
     openTextDocument vs fileUri = Throw e ->
     runAnalyzeFile h vs fetch fileUri = ([], Throw e)) /\
  (forall text : string,
     openTextDocument vs fileUri = Ok text ->
     exists request : Request,
       requestsOf (fst (runAnalyzeFile h vs fetch fileUri)) = [request] /\
       In ("Authorization", ("Bearer " ++ token)%string) (headers request) /\
       body_files request = [mkFileInfo (fsPath fileUri) text]).
Proof.
  intros Htoken. split.
  - intros e Hopen. unfold runAnalyzeFile. now rewrite Htoken, Hopen.
  - intros text Hopen.
    destruct (runAnalyzeFile_with_token h vs fetch fileUri Htoken Hopen)
      as [Hreq _].
    cbv zeta in Hreq. eexists. split; [exact Hreq |]. simpl.
    split; [right; now left | reflexivity].
Qed.

Lemma runAnalyzeFile_request_witness :
  runAnalyzeFile Samples.settingHost Scenarios.editor Scenarios.twoFilesFetch
    Scenarios.uriB = ([], Throw "cannot open file") /\
  exists request : Request,
    requestsOf (fst (runAnalyzeFile Samples.settingHost Scenarios.editor
                       Scenarios.twoFilesFetch Scenarios.uriA)) = [request] /\
    In ("Authorization", "Bearer pk_settings") (headers request) /\
    body_files request = [mkFileInfo "/w/src/a.ts" "const a = 1"].
Proof.
  split.
  - exact (proj1 (@runAnalyzeFile_request Samples.settingHost Scenarios.editor
                    Scenarios.twoFilesFetch Scenarios.uriB "pk_settings"
                    eq_refl) "cannot open file" eq_refl).
  - exact (proj2 (@runAnalyzeFile_request Samples.settingHost Scenarios.editor
                    Scenarios.twoFilesFetch Scenarios.uriA "pk_settings"
                    eq_refl) "const a = 1" eq_refl).
Defined.

(** X6. When the server answers with an error body, both runs throw an
    error whose message is the server's [error], followed by the [hint]
    in brackets when there is a non-empty one; no result is returned. *)
Theorem run_error_response (h : Host) (fileName : string)
    (e : Api.ErrorResponse) (token : string) :
  validateToken h = Ok token ->
  let message :=
    match Api.hint e with
    | Some hint =>
        if string_dec hint "" then Api.error e
        else (Api.error e ++ " (" ++ hint ++ ")")%string
    | None => Api.error e
    end in
  analyzeFile h fileName (Api.Error e) = Throw message /\
  analyzeWorkspace h (Api.Error e) = Throw message.
Proof.
  intros Htoken. cbv zeta. unfold analyzeFile, analyzeWorkspace.
  rewrite Htoken. simpl. unfold errorMessage.
  destruct (Api.hint e) as [hint |]; simpl.
  - destruct (string_dec hint "") as [-> | Hne]; simpl.
    + rewrite append_nil_r. now split.
    + destruct hint; [now elim Hne | simpl; now split].
  - rewrite append_nil_r. now split.
Qed.

Lemma run_error_response_witness :
  analyzeFile Samples.settingHost "/w/src/a.ts"
    (Api.Error Scenarios.creditsError)
    = Throw "Insufficient credits (Buy more)" /\
  analyzeWorkspace Samples.settingHost (Api.Error Scenarios.creditsError)
    = Throw "Insufficient credits (Buy more)".
Proof.
  exact (@run_error_response Samples.settingHost "/w/src/a.ts"
           Scenarios.creditsError "pk_settings" eq_refl).
Defined.

(** ** Identifiers and issues of a transformed point *)

Section Identifiers.

Lemma append_nonempty (a b : string) (c : ascii) :
  (a ++ String c b)%string <> "".
Proof. destruct a; discriminate. Qed.






End Identifiers.

(** X7. The id of a transformed point is never the empty string: it has
    a first character. *)
Theorem transformInferencePoint_id_nonempty (p : Api.InferencePoint) :
  exists (c : ascii) (rest : string),
    id (transformInferencePoint p) = String c rest.
Proof.
  assert (Hne : id (transformInferencePoint p) <> "").
  { simpl. unfold JS.or_string, compositeId.
    destruct (Api.id p) as [[| c rest] |]; simpl;
      try discriminate; apply append_nonempty. }
  destruct (id (transformInferencePoint p)) as [| c rest];
    [now elim Hne | now exists c, rest].
Qed.



(** X9. Transforming a point keeps its issues one for one and in order:
    there are as many as on the wire, and the n-th carries the wire
    [type], [headline] (as title), [evidence] (as description) and
    [suggestedFix] (as fix) unchanged, with no impact and no benchmark. *)
Theorem transformInferencePoint_issues (p : Api.InferencePoint) :
  List.length (issues (transformInferencePoint p))
    = List.length (arrayOf (Api.issues p)) /\
  forall (n : nat) (w : Api.Issue),
    nth_error (arrayOf (Api.issues p)) n = Some w ->
    exists i : Issue,
      nth_error (issues (transformInferencePoint p)) n = Some i /\
      type i = Api.type w /\ title i = Api.headline w /\
      description i = Api.evidence w /\ fix_ i = Api.suggestedFix w /\
      impact i = None /\ benchmark i = None.
Proof.
  split.
  - simpl. rewrite length_map. now destruct (Api.issues p).
  - intros n w Hn. exists (transformIssue w). split; [| now repeat split].
    rewrite transformInferencePoint_issue.
    replace (JS.or_object (Api.issues p) []) with (arrayOf (Api.issues p))
      by now destruct (Api.issues p).
    now rewrite Hn.
Qed.

(** ** What the results hold, all together *)

Section Partition.

Lemma flat_map_filter_nil (A : Type) (F : string -> Api.InferencePoint -> bool)
    (ks : list string) :
  flat_map (fun k => filter (F k) (@nil Api.InferencePoint)) ks = [].
Proof. induction ks as [| k ks IH]; [reflexivity | exact IH]. Qed.

Lemma flat_map_filter_other (p : Api.InferencePoint)
    (rest : list Api.InferencePoint) (ks : list string) :
  ~ In (Api.file p) ks ->
  flat_map (fun k => filter (fun q => String.eqb (Api.file q) k) (p :: rest)) ks
    = flat_map (fun k => filter (fun q => String.eqb (Api.file q) k) rest) ks.
Proof.
  induction ks as [| k ks IH]; intros Hnot; [reflexivity |].
  simpl in *. rewrite IH by tauto.
  destruct (String.eqb (Api.file p) k) eqn:E; [| reflexivity].
  apply String.eqb_eq in E. elim Hnot. now left.
Qed.

(** Filtering the points by each key of a list of distinct keys that
    covers their files rearranges the points: none is lost, none is
    repeated. *)
Lemma filter_by_file_partition (ks : list string)
    (points : list Api.InferencePoint) :
  NoDup ks ->
  (forall q, In q points -> In (Api.file q) ks) ->
  Permutation
    (flat_map (fun k => filter (fun q => String.eqb (Api.file q) k) points) ks)
    points.
Proof.
  intros Hnd. induction points as [| p rest IH]; intros Hcover.
  - rewrite (@flat_map_filter_nil unit). constructor.
  - destruct (in_split _ _ (Hcover p (or_introl eq_refl)))
      as (ks1 & ks2 & Hks).
    assert (Hrest : forall q, In q rest -> In (Api.file q) ks)
      by (intros q Hq; apply Hcover; now right).
    specialize (IH Hrest). subst ks.
    apply NoDup_remove_2 in Hnd.
    rewrite in_app_iff in Hnd.
    rewrite flat_map_app in *. cbn [flat_map] in *.
    rewrite !flat_map_filter_other by tauto.
    cbn [filter]. rewrite String.eqb_refl.
    simpl app. apply Permutation_sym.
    eapply Permutation_trans; [| apply Permutation_middle].
    apply perm_skip. now apply Permutation_sym.
Qed.

Lemma flat_map_map_out (A B C : Type) (g : B -> C) (F : A -> list B)
    (l : list A) :
  flat_map (fun a => map g (F a)) l = map g (flat_map F l).
Proof.
  induction l as [| a l IH]; [reflexivity |].
  simpl. now rewrite IH, map_app.
Qed.

Lemma resultsFrom_points (h : Host) (c : option Api.Credits) (k : nat)
    (entries : JS.Map (list InferencePoint)) :
  flat_map inferencePoints (resultsFrom h c k entries) = flat_map snd entries.
Proof.
  revert k. induction entries as [| [f pts] rest IH]; intros k; [reflexivity |].
  simpl. now rewrite IH.
Qed.

(** The points of the groups are the points of the response, rearranged. *)
Lemma groupsOf_partition (points : list Api.InferencePoint) :
  Permutation (flat_map snd (groupsOf points))
              (map transformInferencePoint points).
Proof.
  unfold groupsOf. rewrite flat_map_concat_map, map_map. simpl.
  rewrite <- flat_map_concat_map. unfold pointsOf.
  rewrite flat_map_map_out. apply Permutation_map.
  apply filter_by_file_partition.
  - apply firstOccurrences_NoDup.
  - intros q Hq. apply firstOccurrences_In. now apply in_map.
Qed.

End Partition.

(** X10. The results of [analyzeWorkspace] share out the points of the
    response: taken together, their points are the transformed points of
    the response, each exactly once (in another order), so their
    [totalPoints] add up to the number of points of the response. *)
Theorem analyzeWorkspace_partition (h : Host) (r : Api.AnalysisResponse)
    (rs : list AnalysisResult) :
  analyzeWorkspace h (Api.Analysis r) = Ok rs ->
  Permutation (flat_map inferencePoints rs)
              (map transformInferencePoint (Api.inferencePoints r)) /\
  list_sum (map (fun res => totalPoints (summary res)) rs)
    = List.length (Api.inferencePoints r).
Proof.
  unfold analyzeWorkspace. destruct (validateToken h); simpl; [| discriminate].
  rewrite groupResults_groupsOf. intros Hrun. injection Hrun as <-.
  assert (Hperm :
    Permutation
      (flat_map inferencePoints
         (resultsFrom h (Api.credits r) 0 (groupsOf (Api.inferencePoints r))))
      (map transformInferencePoint (Api.inferencePoints r))).
  { rewrite resultsFrom_points. apply groupsOf_partition. }
  split; [exact Hperm |].
  apply Permutation_length in Hperm. rewrite length_map in Hperm.
  rewrite <- Hperm. clear Hperm.
  generalize (groupsOf (Api.inferencePoints r)). generalize 0.
  intros k entries. revert k.
  induction entries as [| [f pts] rest IH]; intros k; [reflexivity |].
  simpl. rewrite List.length_app. now rewrite IH.
Qed.

Lemma analyzeWorkspace_partition_witness :
  exists rs : list AnalysisResult,
    analyzeWorkspace Samples.settingHost (Api.Analysis Samples.twoFilesResponse)
      = Ok rs /\
    list_sum (map (fun res => totalPoints (summary res)) rs) = 3.
Proof.
  eexists. split; [reflexivity |].
  exact (proj2 (@analyzeWorkspace_partition Samples.settingHost
                  Samples.twoFilesResponse _ eq_refl)).
Defined.

Section Totals.

Lemma countSeverity_Permutation (s : Severity) (l l' : list InferencePoint) :
  Permutation l l' ->
  countSeverity s (allIssues l) = countSeverity s (allIssues l').
Proof.
  unfold allIssues.
  induction 1 as [| x l l' Hperm IH | x y l | l l' l'' H1 IH1 H2 IH2]; simpl.
  - reflexivity.
  - rewrite !countSeverity_app. now rewrite IH.
  - rewrite !countSeverity_app. lia.
  - congruence.
Qed.

Lemma allIssues_app (l l' : list InferencePoint) :
  allIssues (l ++ l') = allIssues l ++ allIssues l'.
Proof. unfold allIssues. apply flat_map_app. Qed.

(** The summary built by [createResultFromPoints] counts the issues of
    the points it is given. *)
Lemma createResultFromPoints_summary (f : string) (points : list InferencePoint)
    (c : option Api.Credits) (now : string) :
  totalPoints (summary (createResultFromPoints f points c now))
    = List.length points /\
  criticalIssues (summary (createResultFromPoints f points c now))
    = countSeverity critical (allIssues points) /\
  warnings (summary (createResultFromPoints f points c now))
    = countSeverity high (allIssues points)
      + countSeverity medium (allIssues points).
Proof.
  simpl. destruct (tallyPoints_counts points emptyTally) as [Hc Hw].
  rewrite Hc, Hw. simpl. auto.
Qed.

Lemma addTotals_fold (rs : list AnalysisResult) (a b c : nat) :
  fold_left Commands.addTotals rs (a, b, c)
    = (a + list_sum (map (fun res => totalPoints (summary res)) rs),
       b + list_sum (map (fun res => criticalIssues (summary res)) rs),
       c + list_sum (map (fun res => warnings (summary res)) rs)).
Proof.
  revert a b c. induction rs as [| res rest IH]; intros a b c; simpl.
  - now rewrite !Nat.add_0_r.
  - rewrite IH, !Nat.add_assoc. reflexivity.
Qed.

Lemma resultsFrom_sums (h : Host) (c : option Api.Credits) (k : nat)
    (entries : JS.Map (list InferencePoint)) :
  list_sum (map (fun res => totalPoints (summary res))
                (resultsFrom h c k entries))
    = List.length (flat_map snd entries) /\
  list_sum (map (fun res => criticalIssues (summary res))
                (resultsFrom h c k entries))
    = countSeverity critical (allIssues (flat_map snd entries)) /\
  list_sum (map (fun res => warnings (summary res))
                (resultsFrom h c k entries))
    = countSeverity high (allIssues (flat_map snd entries))
      + countSeverity medium (allIssues (flat_map snd entries)).
Proof.
  revert k. induction entries as [| [f pts] rest IH]; intros k.
  - unfold countSeverity. simpl. auto.
  - destruct (IH (S k)) as (Ht & Hc & Hw).
    destruct (createResultFromPoints_summary f pts c (clock h k))
      as (Ht1 & Hc1 & Hw1).
    cbn [resultsFrom map list_sum fold_right flat_map snd].
    rewrite Ht1, Hc1, Hw1.
    change (fold_right Nat.add 0) with list_sum.
    rewrite Ht, Hc, Hw, List.length_app, allIssues_app, !countSeverity_app.
    repeat split; lia.
Qed.

End Totals.

Section TotalsOfRun.

Lemma workspace_totals_aux (h : Host) (r : Api.AnalysisResponse)
    (rs : list AnalysisResult) :
  analyzeWorkspace h (Api.Analysis r) = Ok rs ->
  Commands.totals rs
    = (List.length (Api.inferencePoints r),
       countSeverity critical
         (allIssues (map transformInferencePoint (Api.inferencePoints r))),
       countSeverity high
         (allIssues (map transformInferencePoint (Api.inferencePoints r)))
       + countSeverity medium
           (allIssues (map transformInferencePoint (Api.inferencePoints r)))).
Proof.
  unfold analyzeWorkspace. destruct (validateToken h); simpl; [| discriminate].
  rewrite groupResults_groupsOf. intros Hrun. injection Hrun as <-.
  unfold Commands.totals. rewrite addTotals_fold. simpl.
  destruct (resultsFrom_sums h (Api.credits r) 0
              (groupsOf (Api.inferencePoints r))) as (Ht & Hc & Hw).
  rewrite Ht, Hc, Hw.
  pose proof (groupsOf_partition (Api.inferencePoints r)) as Hperm.
  rewrite (Permutation_length Hperm), length_map.
  now rewrite !(countSeverity_Permutation _ Hperm).
Qed.

End TotalsOfRun.

(** X11. The totals that the workspace command adds up over the results
    of [analyzeWorkspace] are those of the whole response: the number of
    its points, the number of critical issues of its points after
    transformation, and the number of their high or medium issues. *)
Theorem workspace_totals (h : Host) (r : Api.AnalysisResponse)
    (rs : list AnalysisResult) :
  analyzeWorkspace h (Api.Analysis r) = Ok rs ->
  let all := map transformInferencePoint (Api.inferencePoints r) in
  Commands.totals rs
    = (List.length (Api.inferencePoints r),
       countSeverity critical (allIssues all),
       countSeverity high (allIssues all)
       + countSeverity medium (allIssues all)).
Proof. intros Hrun. cbv zeta. exact (@workspace_totals_aux h r rs Hrun). Qed.

Lemma workspace_totals_witness :
  exists rs : list AnalysisResult,
    analyzeWorkspace Samples.settingHost (Api.Analysis Samples.twoFilesResponse)
      = Ok rs /\
    Commands.totals rs = (3, 0, 0).
Proof.
  eexists. split; [reflexivity |].
  exact (@workspace_totals Samples.settingHost Samples.twoFilesResponse _
           eq_refl).
Defined.

Section SingleFile.

Lemma belongsTo_matchesFile (fileName : string) (q : Api.InferencePoint) :
  belongsTo (Api.file q) fileName -> matchesFile fileName q = true.
Proof.
  unfold matchesFile. intros [Heq | (leaf & Hleaf & Hsuffix)].
  - rewrite Heq, String.eqb_refl. reflexivity.
  - rewrite (isLeafNameOf_unique Hleaf (leafName_isLeafNameOf fileName))
      in Hsuffix.
    apply endsWith_hasSuffix in Hsuffix. rewrite Hsuffix.
    apply orb_true_r.
Qed.

Lemma matchesFile_iff (fileName : string) (q : Api.InferencePoint) :
  matchesFile fileName q = true <-> belongsTo (Api.file q) fileName.
Proof.
  split; [apply matchesFile_belongsTo | apply belongsTo_matchesFile].
Qed.

End SingleFile.

(** X12. With a token, [analyzeFile] on an analysis response returns a
    result for the requested file whose points are exactly the
    transformed wire points whose file is the requested path or ends with
    its leaf name, in their order in the response; every other point of
    the response is left out. *)
Theorem analyzeFile_points (h : Host) (fileName token : string)
    (r : Api.AnalysisResponse) :
  validateToken h = Ok token ->
  exists res : AnalysisResult,
    analyzeFile h fileName (Api.Analysis r) = Ok res /\
    result_file res = fileName /\
    (forall p : InferencePoint,
       In p (inferencePoints res) <->
       exists q : Api.InferencePoint,
         In q (Api.inferencePoints r) /\
         belongsTo (Api.file q) fileName /\
         p = transformInferencePoint q) /\
    inferencePoints res
      = map transformInferencePoint
          (filter (matchesFile fileName) (Api.inferencePoints r)) /\
    totalPoints (summary res) <= List.length (Api.inferencePoints r).
Proof.
  intros Htoken. unfold analyzeFile. rewrite Htoken. simpl.
  eexists. split; [reflexivity |]. split; [reflexivity |]. simpl.
  split; [| split].
  - intros p. rewrite in_map_iff. split.
    + intros (q & <- & Hq). apply filter_In in Hq. destruct Hq as [Hq Hm].
      exists q. repeat split; [exact Hq | now apply matchesFile_iff].
    + intros (q & Hq & Hb & ->). exists q. split; [reflexivity |].
      apply filter_In. split; [exact Hq | now apply matchesFile_iff].
  - reflexivity.
  - rewrite length_map. apply filter_length_le.
Qed.

Lemma analyzeFile_points_witness :
  exists res : AnalysisResult,
    analyzeFile Samples.settingHost "/work/src/app.ts"
      (Api.Analysis Samples.singleFileResponse) = Ok res /\
    result_file res = "/work/src/app.ts" /\
    totalPoints (summary res) <= 4.
Proof.
  destruct (@analyzeFile_points Samples.settingHost "/work/src/app.ts"
              "pk_settings" Samples.singleFileResponse eq_refl)
    as (res & Hrun & Hfile & _ & _ & Hle).
  exists res. repeat split; assumption.
Defined.



Section Stamps.

Lemma resultsFrom_nth (h : Host) (c : option Api.Credits) (k0 k : nat)
    (entries : JS.Map (list InferencePoint)) (res : AnalysisResult) :
  nth_error (resultsFrom h c k0 entries) k = Some res ->
  version res = "1.0" /\
  analyzedAt res = clock h (k0 + k) /\
  credits res
    = option_map (fun x => mkCredits (Api.consumed x) (Api.remaining x)) c.
Proof.
  revert k0 k. induction entries as [| [f pts] rest IH]; intros k0 k.
  - destruct k; discriminate.
  - destruct k as [| k]; simpl.
    + intros E. injection E as <-. simpl. rewrite Nat.add_0_r.
      now destruct c.
    + intros E. apply IH in E. now rewrite Nat.add_succ_r.
Qed.

End Stamps.

(** X14. Each result of [analyzeWorkspace] has version "1.0", carries a
    copy of the [consumed] and [remaining] credits of the response (none
    when the response has none; [expiringSoon] is not kept), and the k-th
    result is stamped with the k-th reading of the clock. *)
Theorem analyzeWorkspace_stamps (h : Host) (r : Api.AnalysisResponse)
    (rs : list AnalysisResult) (k : nat) (res : AnalysisResult) :
  analyzeWorkspace h (Api.Analysis r) = Ok rs ->
  nth_error rs k = Some res ->
  version res = "1.0" /\
  analyzedAt res = clock h k /\
  credits res
    = match Api.credits r with
      | Some c => Some (mkCredits (Api.consumed c) (Api.remaining c))
      | None => None
      end.
Proof.
  unfold analyzeWorkspace. destruct (validateToken h); simpl; [| discriminate].
  rewrite groupResults_groupsOf. intros Hrun Hk. injection Hrun as <-.
  apply resultsFrom_nth in Hk. simpl in Hk.
  destruct Hk as (Hv & Ha & Hc). now destruct (Api.credits r).
Qed.

Lemma analyzeWorkspace_stamps_witness :
  exists res : AnalysisResult,
    nth_error
      (resultsFrom Samples.settingHost (Api.credits Samples.twoFilesResponse) 0
         (groupsOf (Api.inferencePoints Samples.twoFilesResponse))) 1
      = Some res /\
    analyzedAt res = Samples.tick 1 /\
    credits res = Some (mkCredits 1 99).
Proof.
  eexists. split; [reflexivity |].
  refine (proj2 (@analyzeWorkspace_stamps Samples.settingHost
                   Samples.twoFilesResponse _ 1 _ eq_refl eq_refl)).
Defined.

(* ------------------------------------------------------------------ *)
(** * Properties of the commands *)

(** ** Setting the token *)

Section TokenInput.

Lemma whiteSpaceOnly_append (a b : string) :
  whiteSpaceOnly (a ++ b) = whiteSpaceOnly a && whiteSpaceOnly b.
Proof.
  induction a as [| c a IH]; simpl; [reflexivity |].
  now rewrite IH, andb_assoc.
Qed.

(** Trimming leaves nothing exactly of a string of white space. *)
Lemma trim_empty_iff (s : string) :
  JS.trim s = "" <-> whiteSpaceOnly s = true.
Proof.
  split; [| apply trim_whiteSpaceOnly].
  intros Hempty.
  destruct (trim_decompose s) as (a & b & Heq & Ha & Hb & _).
  rewrite Hempty in Heq. simpl in Heq.
  now rewrite Heq, whiteSpaceOnly_append, Ha, Hb.
Qed.

Lemma length_zero_iff (s : string) : String.length s = 0 <-> s = "".
Proof. destruct s; simpl; split; congruence. Qed.

Lemma validateInput_accepts (value : string) :
  Commands.validateInput value = None <-> JS.trim value <> "".
Proof.
  unfold Commands.validateInput.
  destruct value as [| c rest]; simpl; [split; [discriminate | tauto] |].
  destruct (Nat.eqb (String.length (JS.trim (String c rest))) 0) eqn:E.
  - apply Nat.eqb_eq, length_zero_iff in E. split; [discriminate | tauto].
  - apply Nat.eqb_neq in E. rewrite length_zero_iff in E. tauto.
Qed.

End TokenInput.

(** X15. The input box of "Set Token" refuses a value, with the message
    "Token cannot be empty", exactly when the value is empty or white
    space only; it accepts every other value. *)
Theorem validateInput_blank (value : string) :
  (Commands.validateInput value = Some "Token cannot be empty" <->
   whiteSpaceOnly value = true) /\
  (Commands.validateInput value = None <-> whiteSpaceOnly value = false).
Proof.
  pose proof (validateInput_accepts value) as Hacc.
  pose proof (trim_empty_iff value) as Hblank.
  assert (Hcases : Commands.validateInput value = None \/
                   Commands.validateInput value = Some "Token cannot be empty").
  { unfold Commands.validateInput. destruct (_ || _); auto. }
  destruct (whiteSpaceOnly value) eqn:Hws.
  - assert (Hno : Commands.validateInput value <> None).
    { intros E. apply Hacc in E. apply E. now apply Hblank. }
    destruct Hcases as [E | E]; [contradiction |].
    rewrite E. split; split; try discriminate; reflexivity.
  - assert (Hyes : Commands.validateInput value = None).
    { apply Hacc. intros E. apply Hblank in E. discriminate. }
    rewrite Hyes. split; split; try discriminate; reflexivity.
Qed.



(** ** Names and error reports *)

Section Includes.

Lemma startsWith_iff (s p : string) :
  JS.startsWith s p = true <-> exists b : string, s = (p ++ b)%string.
Proof.
  revert s. induction p as [| a p IH]; intros s.
  - split; [intros _; now exists s | intros _; now destruct s].
  - destruct s as [| c s]; simpl.
    + split; [discriminate | intros (b & E); discriminate].
    + rewrite andb_true_iff, IH. split.
      * intros [Hac (b & ->)]. apply Ascii.eqb_eq in Hac. subst c.
        now exists b.
      * intros (b & E). injection E as -> ->.
        split; [apply Ascii.eqb_refl | now exists b].
Qed.

(** [includes] decides [occursIn]. *)
Lemma includes_iff (s sub : string) :
  JS.includes s sub = true <-> occursIn sub s.
Proof.
  unfold occursIn. induction s as [| c s IH].
  - cbn [JS.includes]. rewrite orb_false_r, startsWith_iff. split.
    + intros (b & E). now exists "", b.
    + intros (a & b & E). destruct a as [| x a]; [now exists b |].
      discriminate.
  - cbn [JS.includes]. rewrite orb_true_iff, startsWith_iff, IH. split.
    + intros [(b & E) | (a & b & E)].
      * now exists "", b.
      * exists (String c a), b. simpl. now rewrite E.
    + intros (a & b & E). destruct a as [| x a].
      * left. now exists b.
      * right. injection E as -> E. now exists a, b.
Qed.

End Includes.

(** X17. The report of a failed run is one error notification, "PeakInfer: "
    followed by the message; it offers "Set Token" exactly when the
    message contains "token" or "Token" somewhere, and offers nothing
    otherwise. *)
Theorem reportError_offer (e : string) :
  exists items : list string,
    Commands.reportError e
      = [ShowErrorMessage ("PeakInfer: " ++ e)%string items] /\
    (items = ["Set Token"] <-> occursIn "token" e \/ occursIn "Token" e) /\
    (items = [] <-> ~ (occursIn "token" e \/ occursIn "Token" e)).
Proof.
  unfold Commands.reportError.
  destruct (JS.includes e "token" || JS.includes e "Token") eqn:E.
  - exists ["Set Token"]. split; [reflexivity |].
    apply orb_true_iff in E. rewrite !includes_iff in E.
    split; split; try tauto; discriminate.
  - exists []. split; [reflexivity |].
    apply orb_false_iff in E. destruct E as [E1 E2].
    assert (Hno : ~ (occursIn "token" e \/ occursIn "Token" e)).
    { intros [H | H]; apply includes_iff in H; congruence. }
    split; split; try tauto; discriminate.
Qed.

(** X18. The name shown for a file is the part of its path after the
    last "/", or the whole path when that part is empty; it is a suffix of
    the path and it is empty only for the empty path. *)
Theorem displayName_suffix (uri : Uri) :
  hasSuffix (fsPath uri) (Commands.displayName uri) /\
  (Commands.displayName uri = "" <-> fsPath uri = "") /\
  (Commands.displayName uri = leafName (fsPath uri) \/
   (leafName (fsPath uri) = "" /\ Commands.displayName uri = fsPath uri)).
Proof.
  unfold Commands.displayName, leafName, JS.split.
  destruct (split_aux_pop "/" (fsPath uri) "" eq_refl)
    as (leaf & Hpop & _ & Hshape).
  rewrite Hpop. simpl. simpl in Hshape.
  destruct leaf as [| c leaf]; simpl.
  - split; [now exists "" |]. split; [tauto |]. right. now split.
  - split; [| split].
    + destruct Hshape as [H | (dir & H)]; rewrite <- ?H; [now exists "" |].
      rewrite H. exists (dir ++ "/")%string. now rewrite append_assoc.
    + split; [discriminate |].
      intros E. rewrite E in Hshape.
      destruct Hshape as [H | (dir & H)]; [discriminate |].
      destruct dir; discriminate.
    + now left.
Qed.

(** ** What the commands show *)

Section Outcomes.

Variables (h : Host) (vs : VSCode) (fetch : Fetch).

(** A successful single-file run made one request and built its result
    with [createResultFromPoints]. *)
Lemma runAnalyzeFile_ok (uri : Uri) (res : AnalysisResult) :
  snd (runAnalyzeFile h vs fetch uri) = Ok res ->
  (exists request, fst (runAnalyzeFile h vs fetch uri) = [HttpPost request]) /\
  exists points c now, res = createResultFromPoints (fsPath uri) points c now.
Proof.
  unfold runAnalyzeFile.
  destruct (validateToken h); [| discriminate].
  destruct (openTextDocument vs uri); [| discriminate].
  unfold callAnalysisAPI.
  destruct (fetch _) as [[r | e] | msg]; simpl; try discriminate.
  intros E. injection E as <-. split; eauto.
  unfold transformApiResponse. eauto.
Qed.

Lemma runAnalyzeFile_events (uri : Uri) :
  fst (runAnalyzeFile h vs fetch uri) = [] \/
  exists request, fst (runAnalyzeFile h vs fetch uri) = [HttpPost request].
Proof.
  unfold runAnalyzeFile.
  destruct (validateToken h); [| now left].
  destruct (openTextDocument vs uri); [| now left].
  unfold callAnalysisAPI.
  destruct (fetch _) as [[r | e] | msg]; simpl; right; eauto.
Qed.


Lemma reportError_quiet (e : string) :
  existsb publishes (Commands.reportError e) = false /\
  existsb isWarning (Commands.reportError e) = false.
Proof.
  unfold Commands.reportError. destruct (_ || _); now split.
Qed.

Lemma notify_isWarning (critical : nat) (message : string) :
  isWarning (Commands.notify critical message) = Nat.ltb 0 critical.
Proof. unfold Commands.notify. now destruct (Nat.ltb 0 critical). Qed.

Lemma notify_publishes (critical : nat) (message : string) :
  publishes (Commands.notify critical message) = false.
Proof. unfold Commands.notify. now destruct (Nat.ltb 0 critical). Qed.

End Outcomes.

Section FilePresentation.

Lemma presentFile_flags (uri : Uri) (f : string) (points : list InferencePoint)
    (c : option Api.Credits) (now : string) :
  let res := createResultFromPoints f points c now in
  existsb isWarning (Commands.presentFile uri (Ok res))
    = Nat.ltb 0 (countSeverity critical (allIssues points)) /\
  existsb publishes (Commands.presentFile uri (Ok res))
    = negb (Nat.eqb (List.length points) 0).
Proof.
  cbv zeta. unfold Commands.presentFile.
  destruct (createResultFromPoints_summary f points c now) as (_ & Hc & _).
  cbn [inferencePoints createResultFromPoints].
  destruct points as [| p rest].
  - now split.
  - cbn [List.length Nat.eqb existsb]. rewrite notify_isWarning, notify_publishes.
    rewrite Hc. cbn [isWarning publishes]. split; [| reflexivity].
    now rewrite orb_false_r.
Qed.

Lemma events_quiet (h : Host) (vs : VSCode) (fetch : Fetch) (uri : Uri) :
  existsb isWarning (fst (runAnalyzeFile h vs fetch uri)) = false /\
  existsb publishes (fst (runAnalyzeFile h vs fetch uri)) = false.
Proof.
  destruct (runAnalyzeFile_events h vs fetch uri) as [-> | (request & ->)];
    now split.
Qed.

End FilePresentation.

(** X19. The file command shows a warning notification exactly when the
    run succeeded and some point of the result has a critical issue; the
    early exit for a result without points never hides one. *)
Theorem analyzeFile_warning_iff (h : Host) (vs : VSCode) (fetch : Fetch)
    (uri : Uri) :
  existsb isWarning (Commands.analyzeFile h vs fetch uri) = true <->
  exists res : AnalysisResult,
    snd (runAnalyzeFile h vs fetch uri) = Ok res /\
    0 < countSeverity critical (allIssues (inferencePoints res)).
Proof.
  unfold Commands.analyzeFile.
  pose proof (events_quiet h vs fetch uri) as [Hquiet _].
  pose proof (runAnalyzeFile_ok h vs fetch uri) as Hok.
  destruct (runAnalyzeFile h vs fetch uri) as [events outcome].
  simpl in *. rewrite existsb_app, Hquiet. simpl.
  destruct outcome as [res | e].
  - destruct (Hok res eq_refl) as (_ & points & c & now & ->).
    rewrite (proj1 (presentFile_flags uri (fsPath uri) points c now)).
    rewrite Nat.ltb_lt. simpl. split.
    + intros Hlt. eexists. split; [reflexivity | exact Hlt].
    + intros (res & E & Hlt). injection E as <-. exact Hlt.
  - cbn [Commands.presentFile].
    rewrite (proj2 (reportError_quiet e)). split; [discriminate |].
    intros (res & E & _). discriminate.
Qed.



Lemma analyzeFile_warning_iff_witness :
  existsb isWarning
    (Commands.analyzeFile Samples.settingHost Scenarios.editor
       Scenarios.criticalFetch Scenarios.uriA) = true.
Proof.
  apply analyzeFile_warning_iff.
  eexists. split; [reflexivity |]. vm_compute. lia.
Defined.

Section WorkspacePresentation.



End WorkspacePresentation.



Section WorkspaceCommand.



Lemma validateToken_missing (h : Host) :
  getToken h = None \/ getToken h = Some "" ->
  validateToken h = Throw missingTokenMessage.
Proof. unfold validateToken. now intros [-> | ->]. Qed.

End WorkspaceCommand.


(** X23. Without a usable token both commands end with the error
    notification "PeakInfer: PeakInfer token not configured. ..." that
    offers "Set Token"; no request is sent and no sink is filled, and the
    workspace command has cleared the diagnostics all the same. *)
Theorem commands_without_token (h : Host) (vs : VSCode) (fetch : Fetch)
    (uri : Uri) :
  getToken h = None \/ getToken h = Some "" ->
  Commands.analyzeFile h vs fetch uri
    = [WithProgress ("PeakInfer: Analyzing " ++ Commands.displayName uri)%string
         false;
       ProgressReport "Scanning for inference points..." None;
       ShowErrorMessage ("PeakInfer: " ++ missingTokenMessage)%string
         ["Set Token"]] /\
  Commands.analyzeWorkspace h vs fetch
    = [WithProgress "PeakInfer: Analyzing workspace" true;
       DiagnosticsClear;
       ShowErrorMessage ("PeakInfer: " ++ missingTokenMessage)%string
         ["Set Token"]].
Proof.
  intros Hno. pose proof (validateToken_missing h Hno) as Hv.
  unfold Commands.analyzeFile, Commands.analyzeWorkspace,
    runAnalyzeFile, runAnalyzeWorkspace.
  rewrite Hv. split; reflexivity.
Qed.

Lemma commands_without_token_witness :
  Commands.analyzeWorkspace Scenarios.noTokenHost Scenarios.editor
    Scenarios.twoFilesFetch
    = [WithProgress "PeakInfer: Analyzing workspace" true;
       DiagnosticsClear;
       ShowErrorMessage ("PeakInfer: " ++ missingTokenMessage)%string
         ["Set Token"]].
Proof.
  exact (proj2 (@commands_without_token Scenarios.noTokenHost Scenarios.editor
                  Scenarios.twoFilesFetch Scenarios.uriA
                  (or_introl eq_refl))).
Defined.

(** The workspace command on the sample editor and the two-file answer. *)
Example analyzeWorkspace_command_sample :
  exists rs : list AnalysisResult,
    Commands.analyzeWorkspace Samples.settingHost Scenarios.editor
      Scenarios.twoFilesFetch
    = [WithProgress "PeakInfer: Analyzing workspace" true;
       DiagnosticsClear;
       ProgressReport "Collecting files..." None;
       ProgressReport "Analyzing 2 files..." (Some 50%Z);
       HttpPost
         (buildRequest "pk_settings"
            [mkFileInfo "/w/src/a.ts" "const a = 1";
             mkFileInfo "/w/lib/c.py" "c = 3"] false);
       ProgressReport "Processing results..." (Some 40%Z);
       DiagnosticsUpdateFromMultipleAnalyses rs;
       ShowInformationMessage
         "PeakInfer: Found 3 inference point(s) in 2 file(s)";
       ResultsPanelUpdateResults rs].
Proof. eexists. reflexivity. Qed.
